(** * Compliance monitoring agent: rule evaluation, risk aggregation,
      violation lifecycle and dashboard

    A shallow embedding of the Python back end
    ([app/models], [app/services], [app/api/v1/endpoints/compliance.py])
    and the properties its specification states about it.

    Conventions of the embedding.
    - A Python [float] is an exact rational ([Q]): the arithmetic is the
      code's, without binary64 rounding, infinities or NaN.  Division is
      Python's true division and raises [ZeroDivisionError] on a zero
      divisor.
    - A Python [int] is a [Z]; a [str] is a [string].
    - A naive [datetime] is a [Z], the number of microseconds since the
      epoch; a [timedelta] is a [Z] number of microseconds.  Every call of
      [datetime.utcnow()] is an explicit argument [now].
    - A function that may raise returns a [result]; [try]/[except] is a
      match on it.
    - Calls of the structured logger are left out: they return nothing and
      change no modelled state.
    - Column defaults, which SQLAlchemy fills in on INSERT, are filled in
      when the row object is built; no modelled code reads such a column
      between the two moments. *)

From Stdlib Require Import ZArith QArith Qminmax Qround Lqa Lia List String Bool.
From stdpp Require Import base strings gmap sorting.
Import ListNotations.

#[local] Open Scope list_scope.
#[local] Open Scope string_scope.
#[local] Open Scope Z_scope.

(** ** Python runtime fragments *)

Module Py.

Inductive exn : Type :=
| ZeroDivisionError
| TypeError
| ValueError
| KeyError
| IndexError
| DataQualityViolation (field_name : string)
| StatementError
| PersistenceError
| RuleError (msg : string).

Inductive result (A : Type) : Type :=
| Ok (a : A)
| Raise (e : exn).

Arguments Ok {A} a.
Arguments Raise {A} e.

Definition bind {A B : Type} (r : result A) (k : A -> result B) : result B :=
  match r with
  | Ok a => k a
  | Raise e => Raise e
  end.

Definition is_ok {A : Type} (r : result A) : bool :=
  match r with Ok _ => true | Raise _ => false end.

(** [x > y] and [x < y] on floats. *)
Definition gt (x y : Q) : bool := negb (Qle_bool x y).
Definition lt (x y : Q) : bool := negb (Qle_bool y x).
Definition le (x y : Q) : bool := Qle_bool x y.

(** [x / y] on floats. *)
Definition truediv (x y : Q) : result Q :=
  if Qeq_bool y 0 then Raise ZeroDivisionError else Ok (x / y)%Q.

(** [min(a, b)]: the first argument unless the second is smaller. *)
Definition min2 (a b : Q) : Q := if lt b a then b else a.

(** [max(a, b)]: the first argument unless the second is larger. *)
Definition max2 (a b : Q) : Q := if gt b a then b else a.

(** [max(iterable)]: [ValueError] on an empty iterable; otherwise the
    running maximum, replaced only by a strictly larger item. *)
Definition max_of (l : list Q) : result Q :=
  match l with
  | [] => Raise ValueError
  | x :: xs => Ok (fold_left max2 xs x)
  end.

(** [max(iterable) if iterable else 0] on ints. *)
Definition max_nat (l : list nat) : nat := fold_left Nat.max l 0%nat.

(** [sum(iterable)]: left to right from [0]. *)
Definition sum (l : list Q) : Q := fold_left Qplus l 0%Q.

(** [round(x, 2)]: the multiple of 1/100 nearest to [x], a tie going
    to the even one. *)
Definition round_half_even (x : Q) : Z :=
  let f := Qfloor x in
  let r := (x - inject_Z f)%Q in
  if lt r (1 # 2) then f
  else if gt r (1 # 2) then f + 1
  else if Z.even f then f else f + 1.

Definition round2 (x : Q) : Q := (inject_Z (round_half_even (x * 100)) / 100)%Q.

(** The parts of an f-string, before rendering. *)
Inductive fpart : Type :=
| FStr (s : string)
| FMoney (q : Q)      (* {q:,.2f} *)
| FInt (z : Z)        (* {z} *)
| FVal (s : string).  (* {s} *)

(** A JSON value of a [violation_data] payload. *)
Inductive jval : Type :=
| JNum (q : Q)
| JInt (z : Z)
| JStr (s : string)
| JBool (b : bool).

(** A value of a request payload ([Dict[str, Any]]). *)
Inductive pyval : Type :=
| PyNone
| PyBool (b : bool)
| PyInt (z : Z)
| PyFloat (q : Q)
| PyStr (s : string)
| PyDatetime (t : Z).

End Py.

Import Py.

Declare Scope py_scope.
Delimit Scope py_scope with py.
Notation "x <- c1 ;; c2" := (Py.bind c1 (fun x => c2))
  (at level 100, c1 at next level, right associativity) : py_scope.
#[local] Open Scope py_scope.

(** [timedelta(hours=h)] and [timedelta(days=d)], in microseconds. *)
Definition hours (h : Z) : Z := h * 3600 * 1000000.
Definition days (d : Z) : Z := d * 24 * 3600 * 1000000.

(** ** app/core/exceptions.py *)

Module ViolationSeverity.
Definition CRITICAL : string := "CRITICAL".
Definition HIGH : string := "HIGH".
Definition MEDIUM : string := "MEDIUM".
Definition LOW : string := "LOW".
Definition INFO : string := "INFO".
End ViolationSeverity.

Module ViolationType.
Definition TRANSACTION_LIMIT : string := "TRANSACTION_LIMIT".
Definition SUSPICIOUS_PATTERN : string := "SUSPICIOUS_PATTERN".
End ViolationType.

(** ** app/models/transaction.py *)

Module Transaction.

Record t : Type := mk {
  id : Z;
  transaction_id : string;
  account_id : string;
  amount : Q;
  currency : string;
  transaction_type : string;
  description : option string;
  counterparty_account : option string;
  counterparty_name : option string;
  counterparty_bank : option string;
  transaction_channel : option string;
  location_country : option string;
  location_city : option string;
  ip_address : option string;
  transaction_timestamp : Z;
  is_flagged : bool;
  risk_score : Q;
  compliance_status : string
}.

Definition set_is_flagged (tx : t) (b : bool) : t :=
  mk (id tx) (transaction_id tx) (account_id tx) (amount tx) (currency tx)
     (transaction_type tx) (description tx) (counterparty_account tx)
     (counterparty_name tx) (counterparty_bank tx) (transaction_channel tx)
     (location_country tx) (location_city tx) (ip_address tx)
     (transaction_timestamp tx) b (risk_score tx) (compliance_status tx).

Definition set_compliance_status (tx : t) (st : string) : t :=
  mk (id tx) (transaction_id tx) (account_id tx) (amount tx) (currency tx)
     (transaction_type tx) (description tx) (counterparty_account tx)
     (counterparty_name tx) (counterparty_bank tx) (transaction_channel tx)
     (location_country tx) (location_city tx) (ip_address tx)
     (transaction_timestamp tx) (is_flagged tx) (risk_score tx) st.

Definition set_risk_score (tx : t) (r : Q) : t :=
  mk (id tx) (transaction_id tx) (account_id tx) (amount tx) (currency tx)
     (transaction_type tx) (description tx) (counterparty_account tx)
     (counterparty_name tx) (counterparty_bank tx) (transaction_channel tx)
     (location_country tx) (location_city tx) (ip_address tx)
     (transaction_timestamp tx) (is_flagged tx) r (compliance_status tx).

Definition is_high_value (tx : t) : bool := Py.gt (amount tx) 10000.

Definition is_international (tx : t) : bool :=
  match location_country tx with
  | Some c => negb (c =? "AUS")%string
  | None => true
  end.

Definition requires_reporting (tx : t) : bool :=
  is_high_value tx || is_international tx || is_flagged tx.

End Transaction.

Module TransactionPattern.

Record t : Type := mk {
  account_id : string;
  pattern_type : string;
  pattern_description : list fpart;
  confidence_score : Q;
  frequency_count : nat;
  time_window_hours : Z;
  is_active : bool;
  transaction_ids : list string
}.

End TransactionPattern.

(** ** app/models/compliance.py *)

Module ComplianceViolation.

Record t : Type := mk {
  violation_type : string;
  severity : string;
  title : string;
  description : list fpart;
  regulatory_framework : string;
  standard_reference : string;
  requirement_id : string;
  transaction_id : option Z;
  risk_score : Q;
  confidence_score : Q;
  status : string;
  assigned_to : option string;
  resolution_notes : option string;
  detected_at : option Z;
  resolved_at : option Z;
  violation_data : gmap string jval;
  remediation_actions : list string
}.

(** [violation.transaction_id = i]. *)
Definition set_transaction_id (v : t) (i : Z) : t :=
  mk (violation_type v) (severity v) (title v) (description v)
     (regulatory_framework v) (standard_reference v) (requirement_id v)
     (Some i) (risk_score v) (confidence_score v) (status v) (assigned_to v)
     (resolution_notes v) (detected_at v) (resolved_at v) (violation_data v)
     (remediation_actions v).

Definition is_critical (v : t) : bool := (severity v =? "CRITICAL")%string.

(** [(now - detected_at).total_seconds() / 3600]; the subtraction raises
    [TypeError] when [detected_at] is [None]. *)
Definition hours_since_detection (v : t) (now : Z) : result Q :=
  match detected_at v with
  | None => Raise TypeError
  | Some d => Ok ((inject_Z (now - d) / 1000000) / 3600)%Q
  end.

Definition is_overdue (v : t) (now : Z) : result bool :=
  if existsb (String.eqb (status v)) ["RESOLVED"; "CLOSED"] then Ok false
  else if is_critical v then
    h <- hours_since_detection v now ;; Ok (Py.gt h 24)
  else if (severity v =? "HIGH")%string then
    h <- hours_since_detection v now ;; Ok (Py.gt h 72)
  else Ok false.

(** The four assignments of [resolve_violation]. *)
Definition set_resolved (v : t) (now : Z) (resolution_notes resolved_by : string) : t :=
  mk (violation_type v) (severity v) (title v) (description v)
     (regulatory_framework v) (standard_reference v) (requirement_id v)
     (transaction_id v) (risk_score v) (confidence_score v) "RESOLVED"
     (Some resolved_by) (Some resolution_notes) (detected_at v) (Some now)
     (violation_data v) (remediation_actions v).

End ComplianceViolation.

(** ** The SQLAlchemy session, as the services use it

    The committed tables, the objects added and not yet flushed, and, for
    each coming [commit()], whether the database accepts it.  A commit
    that is accepted writes everything the session holds in one database
    transaction; one that is refused raises and leaves the tables as they
    were.  The session is built with [autoflush=False]: a query reads the
    committed tables only. *)

Module Session.

Inductive entity : Type :=
| ETransaction (tx : Transaction.t)
| EViolation (v : ComplianceViolation.t)
| EPattern (p : TransactionPattern.t).

Record t : Type := mk {
  transactions : list Transaction.t;
  violations : list ComplianceViolation.t;
  patterns : list TransactionPattern.t;
  pending : list entity;
  commit_outcomes : list bool
}.

Definition add (s : t) (e : entity) : t :=
  mk (transactions s) (violations s) (patterns s) (pending s ++ [e])
     (commit_outcomes s).

Definition insert_row (s : t) (e : entity) : t :=
  match e with
  | ETransaction tx =>
      mk (transactions s ++ [tx]) (violations s) (patterns s) (pending s)
         (commit_outcomes s)
  | EViolation v =>
      mk (transactions s) (violations s ++ [v]) (patterns s) (pending s)
         (commit_outcomes s)
  | EPattern p =>
      mk (transactions s) (violations s) (patterns s ++ [p]) (pending s)
         (commit_outcomes s)
  end.

(** UPDATE of the row of a persistent object changed in memory. *)
Definition update_row (rows : list Transaction.t) (tx : Transaction.t) :
  list Transaction.t :=
  map (fun r => if (Transaction.id r =? Transaction.id tx)%Z then tx else r) rows.

Definition flush (s : t) (dirty : list Transaction.t) : t :=
  let s' := fold_left insert_row (pending s) s in
  mk (fold_left update_row dirty (transactions s')) (violations s')
     (patterns s') [] (commit_outcomes s').

Definition next_outcomes (s : t) : list bool := tl (commit_outcomes s).

(** [commit()]; [dirty] lists the persistent objects assigned to since
    the last commit.  The head of [commit_outcomes] decides; with no
    outcome left the commit is accepted. *)
Definition commit (s : t) (dirty : list Transaction.t) : result unit * t :=
  match commit_outcomes s with
  | false :: rest =>
      (Raise PersistenceError,
       mk (transactions s) (violations s) (patterns s) (pending s) rest)
  | _ =>
      let s' := flush s dirty in
      (Ok tt,
       mk (transactions s') (violations s') (patterns s') (pending s')
          (next_outcomes s))
  end.

Definition next_id (s : t) : Z := Z.of_nat (length (transactions s)) + 1.

(** Whether the database accepts the next commit, and the one after. *)
Definition accepts_next (s : t) : bool := hd true (commit_outcomes s).
Definition accepts_second (s : t) : bool := hd true (tl (commit_outcomes s)).

End Session.

(** ** app/services/compliance_service.py *)

(** A value of the evaluation context ([Dict[str, Any]]). *)
Inductive ctxval : Type :=
| CTransactions (l : list Transaction.t)
| CAccount (a : string)
| CTimestamp (t : Z).

(** [context.get("recent_transactions", [])], then iterated over. *)
Definition get_recent_transactions (context : gmap string ctxval) :
  result (list Transaction.t) :=
  match context !! "recent_transactions" with
  | None => Ok []
  | Some (CTransactions l) => Ok l
  | Some _ => Raise TypeError
  end.

Module ComplianceRuleInterface.

Record t : Type := mk {
  evaluate : Z -> Transaction.t -> gmap string ctxval ->
             result (option ComplianceViolation.t);
  get_rule_id : string;
  get_severity : string
}.

End ComplianceRuleInterface.

Module APRATransactionLimitRule.

Definition rule_id : string := "APRA-TXN-LIMIT-001".
Definition apra_standard : string := "CPS 234".
Definition requirement_id : string := "CPS234-TXN-001".
Definition get_severity : string := ViolationSeverity.HIGH.

Definition evaluate (limit_amount : Q) (now : Z) (transaction : Transaction.t)
  (context : gmap string ctxval) : result (option ComplianceViolation.t) :=
  let amount := Transaction.amount transaction in
  if Py.gt amount limit_amount then
    ratio <- Py.truediv amount limit_amount ;;
    ratio' <- Py.truediv amount limit_amount ;;
    Ok (Some (ComplianceViolation.mk
      ViolationType.TRANSACTION_LIMIT
      get_severity
      ("Transaction Limit Exceeded - APRA " ++ apra_standard)%string
      [FStr "Transaction amount $"; FMoney amount;
       FStr " exceeds APRA limit of $"; FMoney limit_amount]
      "APRA"
      apra_standard
      requirement_id
      None
      (Py.min2 ratio 10)
      1
      "OPEN" None None (Some now) None
      (<["transaction_amount" := JNum amount]>
       (<["limit_amount" := JNum limit_amount]>
       (<["excess_amount" := JNum (amount - limit_amount)%Q]>
       (<["violation_percentage" := JNum (ratio' * 100)%Q]> ∅))))
      ["Review transaction authorization";
       "Verify customer identity";
       "Check for suspicious activity";
       "Report to AUSTRAC if required"]))
  else Ok None.

Definition new (limit_amount : Q) : ComplianceRuleInterface.t :=
  ComplianceRuleInterface.mk (evaluate limit_amount) rule_id get_severity.

End APRATransactionLimitRule.

Module APRAVelocityRule.

Definition rule_id : string := "APRA-VELOCITY-001".
Definition apra_standard : string := "CPS 234".
Definition requirement_id : string := "CPS234-VEL-001".
Definition get_severity : string := ViolationSeverity.HIGH.

(** The comprehension's condition. *)
Definition in_last_hour_of (now : Z) (transaction t : Transaction.t) : bool :=
  (Transaction.transaction_timestamp t >=? now - hours 1)
  && (Transaction.account_id t =? Transaction.account_id transaction)%string.

Definition recent_hour_transactions (now : Z) (transaction : Transaction.t)
  (recent_transactions : list Transaction.t) : list Transaction.t :=
  List.filter (in_last_hour_of now transaction) recent_transactions.

Definition transaction_count (recent_hour : list Transaction.t) : Z :=
  Z.of_nat (length recent_hour) + 1.

Definition total_amount (transaction : Transaction.t)
  (recent_hour : list Transaction.t) : Q :=
  (Py.sum (map Transaction.amount recent_hour) + Transaction.amount transaction)%Q.

Definition evaluate (max_transactions_per_hour : Z) (max_amount_per_hour : Q)
  (now : Z) (transaction : Transaction.t) (context : gmap string ctxval) :
  result (option ComplianceViolation.t) :=
  recent_transactions <- get_recent_transactions context ;;
  let recent_hour := recent_hour_transactions now transaction recent_transactions in
  let count := transaction_count recent_hour in
  let total := total_amount transaction recent_hour in
  if (count >? max_transactions_per_hour) || Py.gt total max_amount_per_hour then
    let severity :=
      if count >? max_transactions_per_hour * 2
      then ViolationSeverity.CRITICAL else ViolationSeverity.HIGH in
    by_count <- Py.truediv (inject_Z count) (inject_Z max_transactions_per_hour) ;;
    by_amount <- Py.truediv total max_amount_per_hour ;;
    Ok (Some (ComplianceViolation.mk
      ViolationType.SUSPICIOUS_PATTERN
      severity
      ("Transaction Velocity Violation - APRA " ++ apra_standard)%string
      [FStr "Account "; FVal (Transaction.account_id transaction);
       FStr " exceeded velocity limits: "; FInt count;
       FStr " transactions totaling $"; FMoney total; FStr " in 1 hour"]
      "APRA"
      apra_standard
      requirement_id
      None
      (Py.max2 by_count by_amount)
      (9 # 10)
      "OPEN" None None (Some now) None
      (<["transaction_count" := JInt count]>
       (<["max_transactions" := JInt max_transactions_per_hour]>
       (<["total_amount" := JNum total]>
       (<["max_amount" := JNum max_amount_per_hour]>
       (<["time_window_hours" := JInt 1]>
       (<["account_id" := JStr (Transaction.account_id transaction)]> ∅))))))
      ["Freeze account temporarily";
       "Contact customer for verification";
       "Review transaction patterns";
       "Escalate to compliance team"]))
  else Ok None.

Definition new (max_transactions_per_hour : Z) (max_amount_per_hour : Q) :
  ComplianceRuleInterface.t :=
  ComplianceRuleInterface.mk
    (evaluate max_transactions_per_hour max_amount_per_hour) rule_id get_severity.

End APRAVelocityRule.

Module APRAGeographicRule.

Definition rule_id : string := "APRA-GEO-001".
Definition apra_standard : string := "CPS 234".
Definition requirement_id : string := "CPS234-GEO-001".
Definition get_severity : string := ViolationSeverity.CRITICAL.

Definition default_countries : list string :=
  ["AFG"; "IRN"; "IRQ"; "PRK"; "SYR"; "YEM"].

(** [high_risk_countries or [...]]: [None] and the empty list both give
    the default list. *)
Definition countries_or_default (high_risk_countries : option (list string)) :
  list string :=
  match high_risk_countries with
  | None | Some [] => default_countries
  | Some l => l
  end.

(** [transaction.location_country in self.high_risk_countries]. *)
Definition country_in (c : option string) (l : list string) : bool :=
  match c with
  | Some c => existsb (String.eqb c) l
  | None => false
  end.

Definition evaluate (high_risk_countries : list string) (now : Z)
  (transaction : Transaction.t) (context : gmap string ctxval) :
  result (option ComplianceViolation.t) :=
  if country_in (Transaction.location_country transaction) high_risk_countries then
    let country := default "" (Transaction.location_country transaction) in
    Ok (Some (ComplianceViolation.mk
      ViolationType.SUSPICIOUS_PATTERN
      ViolationSeverity.CRITICAL
      ("High-Risk Geographic Transaction - APRA " ++ apra_standard)%string
      [FStr "Transaction from high-risk country "; FVal country;
       FStr " for amount $"; FMoney (Transaction.amount transaction)]
      "APRA"
      apra_standard
      requirement_id
      None
      8
      1
      "OPEN" None None (Some now) None
      (<["country_code" := JStr country]>
       (<["risk_category" := JStr "HIGH_RISK_COUNTRY"]>
       (<["transaction_amount" := JNum (Transaction.amount transaction)]>
       (<["requires_enhanced_due_diligence" := JBool true]> ∅))))
      ["Enhanced due diligence required";
       "Verify customer identity";
       "Check sanctions lists";
       "Report to AUSTRAC immediately"]))
  else Ok None.

Definition new (high_risk_countries : option (list string)) :
  ComplianceRuleInterface.t :=
  ComplianceRuleInterface.mk
    (evaluate (countries_or_default high_risk_countries)) rule_id get_severity.

End APRAGeographicRule.

Module ComplianceService.

Definition _initialize_rules : list ComplianceRuleInterface.t :=
  [APRATransactionLimitRule.new 10000;
   APRAVelocityRule.new 10 50000;
   APRAGeographicRule.new None].

Definition _build_evaluation_context (s : Session.t) (now : Z)
  (transaction : Transaction.t) : gmap string ctxval :=
  let recent_transactions :=
    List.filter
      (fun r =>
         (Transaction.account_id r =? Transaction.account_id transaction)%string
         && (Transaction.transaction_timestamp r >=? now - hours 24))
      (Session.transactions s) in
  <["recent_transactions" := CTransactions recent_transactions]>
  (<["account_id" := CAccount (Transaction.account_id transaction)]>
  (<["evaluation_timestamp" := CTimestamp now]> ∅)).

(** One turn of the loop over the rules: the [try] block and its
    [except Exception]. *)
Definition evaluate_rule (now : Z) (transaction : Transaction.t)
  (context : gmap string ctxval) (violations : list ComplianceViolation.t)
  (rule : ComplianceRuleInterface.t) : list ComplianceViolation.t :=
  match ComplianceRuleInterface.evaluate rule now transaction context with
  | Ok (Some violation) =>
      (violations ++
       [ComplianceViolation.set_transaction_id violation (Transaction.id transaction)])%list
  | Ok None => violations
  | Raise _ => violations
  end.

Definition run_rules (rules : list ComplianceRuleInterface.t) (now : Z)
  (transaction : Transaction.t) (context : gmap string ctxval) :
  list ComplianceViolation.t :=
  fold_left (evaluate_rule now transaction context) rules [].

Definition add_all (s : Session.t) (violations : list ComplianceViolation.t) :
  Session.t :=
  fold_left (fun s v => Session.add s (Session.EViolation v)) violations s.

(** The outcome, the transaction object as the call leaves it, and the
    session. *)
Definition evaluate_transaction (rules : list ComplianceRuleInterface.t)
  (now : Z) (transaction : Transaction.t) (s : Session.t) :
  result (list ComplianceViolation.t) * Transaction.t * Session.t :=
  let context := _build_evaluation_context s now transaction in
  let violations := run_rules rules now transaction context in
  let s1 := add_all s violations in
  match violations with
  | [] => (Ok violations, transaction, s1)
  | _ :: _ =>
      match Session.commit s1 [] with
      | (Raise e, s2) => (Raise e, transaction, s2)
      | (Ok _, s2) =>
          let tx1 := Transaction.set_is_flagged transaction true in
          let tx2 := Transaction.set_compliance_status tx1 "UNDER_REVIEW" in
          match Py.max_of (map ComplianceViolation.risk_score violations) with
          | Raise e => (Raise e, tx2, s2)
          | Ok m =>
              let tx3 := Transaction.set_risk_score tx2 m in
              match Session.commit s2 [tx3] with
              | (Raise e, s3) => (Raise e, tx3, s3)
              | (Ok _, s3) => (Ok violations, tx3, s3)
              end
          end
      end
  end.

(** The [compliance_violations] table as [resolve_violation] reads it:
    each row with its [violation_id]. *)
Definition has_violation_id (violation_id : string)
  (row : string * ComplianceViolation.t) : bool :=
  (row.1 =? violation_id)%string.

(** [query(...).filter(violation_id == ...).first()]. *)
Definition find_violation (rows : list (string * ComplianceViolation.t))
  (violation_id : string) : option ComplianceViolation.t :=
  snd <$> List.find (has_violation_id violation_id) rows.

(** The row [first()] returned, assigned to. *)
Fixpoint assign_first (rows : list (string * ComplianceViolation.t))
  (violation_id : string) (f : ComplianceViolation.t -> ComplianceViolation.t) :
  list (string * ComplianceViolation.t) :=
  match rows with
  | [] => []
  | row :: rest =>
      if has_violation_id violation_id row then (row.1, f row.2) :: rest
      else row :: assign_first rest violation_id f
  end.

(** [accepted] tells whether the database accepts the commit. *)
Definition resolve_violation (rows : list (string * ComplianceViolation.t))
  (accepted : bool) (now : Z) (violation_id resolution_notes resolved_by : string) :
  result bool * list (string * ComplianceViolation.t) :=
  match find_violation rows violation_id with
  | Some _ =>
      if accepted then
        (Ok true,
         assign_first rows violation_id
           (fun v => ComplianceViolation.set_resolved v now resolution_notes resolved_by))
      else (Raise PersistenceError, rows)
  | None => (Ok false, rows)
  end.

End ComplianceService.

(** ** app/services/transaction_service.py *)

Module TransactionService.

Definition required_fields : list string :=
  ["account_id"; "amount"; "transaction_type"].

Definition valid_types : list string := ["DEBIT"; "CREDIT"; "TRANSFER"].

(** [field not in data or data[field] is None]. *)
Definition missing (data : gmap string pyval) (field : string) : bool :=
  match data !! field with
  | None | Some PyNone => true
  | Some _ => false
  end.

Fixpoint check_required (fields : list string) (data : gmap string pyval) :
  result unit :=
  match fields with
  | [] => Ok tt
  | field :: rest =>
      if missing data field then Raise (DataQualityViolation field)
      else check_required rest data
  end.

(** [not isinstance(x, (int, float)) or x <= 0]; [bool] is a subclass of
    [int]. *)
Definition bad_amount (x : pyval) : bool :=
  match x with
  | PyInt z => z <=? 0
  | PyFloat q => Py.le q 0
  | PyBool b => negb b
  | _ => true
  end.

(** [x not in valid_types]. *)
Definition bad_type (x : pyval) : bool :=
  match x with
  | PyStr s => negb (existsb (String.eqb s) valid_types)
  | _ => true
  end.

(** [len(x) != 3]; [len] is defined on [str] only among the payload's
    values.  The length is counted in bytes, which is Python's count
    for ASCII text. *)
Definition len_is_not_3 (x : pyval) : result bool :=
  match x with
  | PyStr s => Ok (negb (String.length s =? 3)%nat)
  | _ => Raise TypeError
  end.

Definition _validate_transaction_data (data : gmap string pyval) : result unit :=
  _ <- check_required required_fields data ;;
  amount <- match data !! "amount" with Some x => Ok x | None => Raise KeyError end ;;
  if bad_amount amount then Raise (DataQualityViolation "amount") else
  ty <- match data !! "transaction_type" with Some x => Ok x | None => Raise KeyError end ;;
  if bad_type ty then Raise (DataQualityViolation "transaction_type") else
  match data !! "currency" with
  | None => Ok tt
  | Some c =>
      bad <- len_is_not_3 c ;;
      if bad then Raise (DataQualityViolation "currency") else Ok tt
  end.

(** What a column takes from a payload value; a value of another Python
    type is refused by the storage layer. *)
Definition str_col (x : pyval) : result string :=
  match x with PyStr s => Ok s | _ => Raise StatementError end.

Definition float_col (x : pyval) : result Q :=
  match x with
  | PyFloat q => Ok q
  | PyInt z => Ok (inject_Z z)
  | PyBool b => Ok (if b then 1%Q else 0%Q)
  | _ => Raise StatementError
  end.

Definition nullable_str_col (x : option pyval) : result (option string) :=
  match x with
  | None | Some PyNone => Ok None
  | Some (PyStr s) => Ok (Some s)
  | Some _ => Raise StatementError
  end.

Definition datetime_col (x : pyval) : result Z :=
  match x with PyDatetime t => Ok t | _ => Raise StatementError end.

(** [data.get(key, dflt)]. *)
Definition get_default (data : gmap string pyval) (key : string) (dflt : pyval) :
  pyval := default dflt (data !! key).

(** [data[key]]. *)
Definition get_item (data : gmap string pyval) (key : string) : result pyval :=
  match data !! key with Some x => Ok x | None => Raise KeyError end.

(** The call [Transaction(...)] of [create_transaction]; [id] and
    [transaction_id] are the primary key and the UUID the row gets. *)
Definition new_transaction (id : Z) (uuid : string) (now : Z)
  (data : gmap string pyval) : result Transaction.t :=
  account_id <- (x <- get_item data "account_id" ;; str_col x) ;;
  amount <- (x <- get_item data "amount" ;; float_col x) ;;
  currency <- str_col (get_default data "currency" (PyStr "AUD")) ;;
  transaction_type <- (x <- get_item data "transaction_type" ;; str_col x) ;;
  description <- nullable_str_col (Some (get_default data "description" (PyStr ""))) ;;
  counterparty_account <- nullable_str_col (data !! "counterparty_account") ;;
  counterparty_name <- nullable_str_col (data !! "counterparty_name") ;;
  counterparty_bank <- nullable_str_col (data !! "counterparty_bank") ;;
  transaction_channel <-
    nullable_str_col (Some (get_default data "transaction_channel" (PyStr "ONLINE"))) ;;
  location_country <-
    nullable_str_col (Some (get_default data "location_country" (PyStr "AUS"))) ;;
  location_city <- nullable_str_col (data !! "location_city") ;;
  ip_address <- nullable_str_col (data !! "ip_address") ;;
  transaction_timestamp <-
    datetime_col (get_default data "transaction_timestamp" (PyDatetime now)) ;;
  Ok (Transaction.mk id uuid account_id amount currency transaction_type
        description counterparty_account counterparty_name counterparty_bank
        transaction_channel location_country location_city ip_address
        transaction_timestamp false 0 "PENDING").

(** [rules] are the rules of the service's [ComplianceService].  The
    [refresh] after the first commit reloads the row, which the object
    already equals. *)
Definition create_transaction (rules : list ComplianceRuleInterface.t)
  (now : Z) (uuid : string) (transaction_data : gmap string pyval)
  (s : Session.t) : result Transaction.t * Session.t :=
  match _validate_transaction_data transaction_data with
  | Raise e => (Raise e, s)
  | Ok _ =>
      match new_transaction (Session.next_id s) uuid now transaction_data with
      | Raise e => (Raise e, s)
      | Ok transaction =>
          let s1 := Session.add s (Session.ETransaction transaction) in
          match Session.commit s1 [] with
          | (Raise e, s2) => (Raise e, s2)
          | (Ok _, s2) =>
              match ComplianceService.evaluate_transaction rules now transaction s2 with
              | (Raise e, _, s3) => (Raise e, s3)
              | (Ok violations, transaction', s3) => (Ok transaction', s3)
              end
          end
      end
  end.

(** [ORDER BY transaction_timestamp DESC]. *)
Definition newer_first (a b : Transaction.t) : Prop :=
  Transaction.transaction_timestamp b <= Transaction.transaction_timestamp a.

#[export] Instance newer_first_dec (a b : Transaction.t) : Decision (newer_first a b) :=
  Z_le_dec _ _.

(** [if start_date:] and [if end_date:] hold for every datetime. *)
Definition get_transactions_by_account (s : Session.t) (account_id : string)
  (limit offset : nat) (start_date end_date : option Z) : list Transaction.t :=
  let q0 :=
    List.filter (fun r => (Transaction.account_id r =? account_id)%string)
      (Session.transactions s) in
  let q1 :=
    match start_date with
    | Some d => List.filter (fun r => Transaction.transaction_timestamp r >=? d) q0
    | None => q0
    end in
  let q2 :=
    match end_date with
    | Some d => List.filter (fun r => Transaction.transaction_timestamp r <=? d) q1
    | None => q1
    end in
  take limit (drop offset (merge_sort newer_first q2)).

(** [transactions[0].account_id]. *)
Definition first_account (transactions : list Transaction.t) : result string :=
  match transactions with
  | [] => Raise IndexError
  | t0 :: _ => Ok (Transaction.account_id t0)
  end.

(** [strftime("%Y-%m-%d-%H")]: the calendar hour of the timestamp. *)
Definition hour_key (t : Transaction.t) : Z :=
  Transaction.transaction_timestamp t / hours 1.

(** [transaction_timestamp.hour]. *)
Definition hour_of_day (t : Transaction.t) : Z :=
  (Transaction.transaction_timestamp t / hours 1) mod 24.

Definition count_hour (hourly_counts : gmap Z nat) (t : Transaction.t) :
  gmap Z nat :=
  <[hour_key t := (default 0%nat (hourly_counts !! hour_key t) + 1)%nat]>
    hourly_counts.

Definition hourly_counts (transactions : list Transaction.t) : gmap Z nat :=
  fold_left count_hour transactions ∅.

Definition max_hourly_count (transactions : list Transaction.t) : nat :=
  Py.max_nat ((map_to_list (hourly_counts transactions)).*2).

Definition _detect_velocity_pattern (transactions : list Transaction.t) :
  result (option TransactionPattern.t) :=
  let m := max_hourly_count transactions in
  if (5 <? m)%nat then
    let confidence_score := Py.min2 (inject_Z (Z.of_nat m) / 10)%Q 1 in
    account_id <- first_account transactions ;;
    Ok (Some (TransactionPattern.mk
      account_id
      "VELOCITY"
      [FStr "High transaction velocity detected: "; FInt (Z.of_nat m);
       FStr " transactions in one hour"]
      confidence_score
      m
      1
      true
      (map Transaction.transaction_id transactions)))
  else Ok None.

Definition near_threshold (t : Transaction.t) : bool :=
  Py.le 9000 (Transaction.amount t) && Py.lt (Transaction.amount t) 10000.

Definition _detect_amount_pattern (transactions : list Transaction.t) :
  result (option TransactionPattern.t) :=
  let near_threshold_transactions := List.filter near_threshold transactions in
  let n := length near_threshold_transactions in
  if (3 <=? n)%nat then
    let confidence_score := Py.min2 (inject_Z (Z.of_nat n) / 5)%Q 1 in
    account_id <- first_account transactions ;;
    Ok (Some (TransactionPattern.mk
      account_id
      "AMOUNT"
      [FStr "Potential structuring detected: "; FInt (Z.of_nat n);
       FStr " transactions near $"; FMoney 10000; FStr " threshold"]
      confidence_score
      n
      24
      true
      (map Transaction.transaction_id near_threshold_transactions)))
  else Ok None.

Definition unusual_time (t : Transaction.t) : bool :=
  (hour_of_day t >=? 22) || (hour_of_day t <=? 6).

Definition _detect_time_pattern (transactions : list Transaction.t) :
  result (option TransactionPattern.t) :=
  let unusual_time_transactions := List.filter unusual_time transactions in
  let n := length unusual_time_transactions in
  if (3 <=? n)%nat then
    let confidence_score := Py.min2 (inject_Z (Z.of_nat n) / 10)%Q 1 in
    account_id <- first_account transactions ;;
    Ok (Some (TransactionPattern.mk
      account_id
      "TEMPORAL"
      [FStr "Unusual timing pattern: "; FInt (Z.of_nat n);
       FStr " transactions outside business hours"]
      confidence_score
      n
      24
      true
      (map Transaction.transaction_id unusual_time_transactions)))
  else Ok None.

(** [if pattern: patterns.append(pattern)]. *)
Definition append_if (patterns : list TransactionPattern.t)
  (p : option TransactionPattern.t) : list TransactionPattern.t :=
  match p with Some p => (patterns ++ [p])%list | None => patterns end.

Definition detect_suspicious_patterns (s : Session.t) (now : Z)
  (account_id : string) : result (list TransactionPattern.t) * Session.t :=
  let patterns := [] in
  let recent_transactions :=
    get_transactions_by_account s account_id 100 0 (Some (now - days 30)) None in
  if (length recent_transactions <? 5)%nat then (Ok patterns, s) else
  match _detect_velocity_pattern recent_transactions with
  | Raise e => (Raise e, s)
  | Ok velocity_pattern =>
  let patterns := append_if patterns velocity_pattern in
  match _detect_amount_pattern recent_transactions with
  | Raise e => (Raise e, s)
  | Ok amount_pattern =>
  let patterns := append_if patterns amount_pattern in
  match _detect_time_pattern recent_transactions with
  | Raise e => (Raise e, s)
  | Ok time_pattern =>
  let patterns := append_if patterns time_pattern in
  let s1 := fold_left (fun s p => Session.add s (Session.EPattern p)) patterns s in
  match patterns with
  | [] => (Ok patterns, s1)
  | _ :: _ =>
      match Session.commit s1 [] with
      | (Raise e, s2) => (Raise e, s2)
      | (Ok _, s2) => (Ok patterns, s2)
      end
  end
  end end end.


Definition get_flagged_transactions (s : Session.t) (limit : nat) :
  list Transaction.t :=
  take limit
    (merge_sort newer_first (List.filter Transaction.is_flagged (Session.transactions s))).

(** [ORDER BY amount DESC]. *)
Definition larger_first (a b : Transaction.t) : Prop :=
  (Transaction.amount b <= Transaction.amount a)%Q.

#[export] Instance larger_first_dec (a b : Transaction.t) : Decision (larger_first a b) :=
  match Qlt_le_dec (Transaction.amount a) (Transaction.amount b) with
  | left H => right (Qlt_not_le _ _ H)
  | right H => left H
  end.




End TransactionService.

(** ** app/api/v1/endpoints/compliance.py *)

Module ComplianceDashboard.

Record t : Type := mk {
  total_violations : nat;
  critical_violations : nat;
  high_violations : nat;
  medium_violations : nat;
  low_violations : nat;
  open_violations : nat;
  resolved_violations : nat;
  overdue_violations : nat;
  average_resolution_time_hours : Q;
  compliance_score : Q
}.

End ComplianceDashboard.

Module Dashboard.

(** [sum(1 for v in all_violations if p(v))]. *)
Definition count_if (p : ComplianceViolation.t -> bool)
  (l : list ComplianceViolation.t) : nat := length (List.filter p l).

Definition has_severity (sev : string) (v : ComplianceViolation.t) : bool :=
  (ComplianceViolation.severity v =? sev)%string.

Definition status_in (l : list string) (v : ComplianceViolation.t) : bool :=
  existsb (String.eqb (ComplianceViolation.status v)) l.

(** [sum(1 for v in all_violations if v.is_overdue)]: the property is
    read violation by violation, and the first one that raises ends the
    sum. *)
Fixpoint count_overdue (l : list ComplianceViolation.t) (now : Z) : result nat :=
  match l with
  | [] => Ok 0%nat
  | v :: rest =>
      b <- ComplianceViolation.is_overdue v now ;;
      n <- count_overdue rest now ;;
      Ok (if b then S n else n)
  end.

(** [v.resolved_at and v.detected_at]. *)
Definition has_both_times (v : ComplianceViolation.t) : bool :=
  match ComplianceViolation.resolved_at v, ComplianceViolation.detected_at v with
  | Some _, Some _ => true
  | _, _ => false
  end.

(** [(v.resolved_at - v.detected_at).total_seconds() / 3600]. *)
Definition resolution_hours (v : ComplianceViolation.t) : Q :=
  match ComplianceViolation.resolved_at v, ComplianceViolation.detected_at v with
  | Some r, Some d => ((inject_Z (r - d) / 1000000) / 3600)%Q
  | _, _ => 0%Q
  end.

Definition average_resolution_time (all_violations : list ComplianceViolation.t) :
  result Q :=
  let resolved_violations := List.filter has_both_times all_violations in
  match resolved_violations with
  | [] => Ok 0%Q
  | _ :: _ =>
      let total_resolution_time := Py.sum (map resolution_hours resolved_violations) in
      Py.truediv total_resolution_time
        (inject_Z (Z.of_nat (length resolved_violations)))
  end.

(** The score before the penalty for overdue violations. *)
Definition base_score (all_violations : list ComplianceViolation.t) : result Q :=
  let total_risk_score := Py.sum (map ComplianceViolation.risk_score all_violations) in
  let max_possible_score := (inject_Z (Z.of_nat (length all_violations)) * 10)%Q in
  if Py.gt max_possible_score 0 then
    ratio <- Py.truediv total_risk_score max_possible_score ;;
    Ok (Py.max2 0 (100 - ratio * 100)%Q)
  else Ok 100%Q.

Definition penalised (compliance_score : Q) (overdue_count : nat) : Q :=
  if (0 <? overdue_count)%nat
  then Py.max2 0 (compliance_score - inject_Z (Z.of_nat overdue_count * 5))%Q
  else compliance_score.

Definition get_compliance_dashboard (all_violations : list ComplianceViolation.t)
  (now : Z) : result ComplianceDashboard.t :=
  match all_violations with
  | [] => Ok (ComplianceDashboard.mk 0 0 0 0 0 0 0 0 0 100)
  | _ :: _ =>
      let critical_count := count_if (has_severity "CRITICAL") all_violations in
      let high_count := count_if (has_severity "HIGH") all_violations in
      let medium_count := count_if (has_severity "MEDIUM") all_violations in
      let low_count := count_if (has_severity "LOW") all_violations in
      let open_count := count_if (status_in ["OPEN"; "INVESTIGATING"]) all_violations in
      let resolved_count := count_if (status_in ["RESOLVED"; "CLOSED"]) all_violations in
      overdue_count <- count_overdue all_violations now ;;
      average <- average_resolution_time all_violations ;;
      compliance_score <- base_score all_violations ;;
      let compliance_score := penalised compliance_score overdue_count in
      Ok (ComplianceDashboard.mk
            (length all_violations) critical_count high_count medium_count
            low_count open_count resolved_count overdue_count
            (Py.round2 average) (Py.round2 compliance_score))
  end.

End Dashboard.

(** What one rule adds to the list of violations. *)
Definition contribution (now : Z) (tx : Transaction.t)
  (context : gmap string ctxval) (rule : ComplianceRuleInterface.t) :
  list ComplianceViolation.t :=
  match ComplianceRuleInterface.evaluate rule now tx context with
  | Ok (Some v) => [ComplianceViolation.set_transaction_id v (Transaction.id tx)]
  | _ => []
  end.

(** The database refuses none of the coming commits. *)
Definition accepts_all (s : Session.t) : Prop :=
  Forall (eq true) (Session.commit_outcomes s).

(** The payload passes the checks of the three required fields. *)
Definition required_fields_valid (data : gmap string pyval) : Prop :=
  TransactionService.check_required TransactionService.required_fields data = Ok tt
  /\ (exists x, data !! "amount" = Some x /\ TransactionService.bad_amount x = false)
  /\ (exists x, data !! "transaction_type" = Some x
                /\ TransactionService.bad_type x = false).



(** The filter of the pattern detector's query. *)
Definition in_detection_window (now : Z) (account_id : string)
  (r : Transaction.t) : bool :=
  (Transaction.transaction_timestamp r >=? now - days 30)
  && (Transaction.account_id r =? account_id)%string.


(** The violations a call of [is_overdue] finds overdue. *)
Definition overdue_at (now : Z) (v : ComplianceViolation.t) : bool :=
  match ComplianceViolation.is_overdue v now with
  | Ok b => b
  | Raise _ => false
  end.

(** The transactions of one calendar hour. *)
Definition in_hour (h : Z) (t : Transaction.t) : bool :=
  (TransactionService.hour_key t =? h)%Z.

(** The three detectors in the order [detect_suspicious_patterns] runs
    them, and the list it collects. *)
Definition analyse (transactions : list Transaction.t) :
  result (list TransactionPattern.t) :=
  velocity_pattern <- TransactionService._detect_velocity_pattern transactions ;;
  amount_pattern <- TransactionService._detect_amount_pattern transactions ;;
  time_pattern <- TransactionService._detect_time_pattern transactions ;;
  Ok (TransactionService.append_if
        (TransactionService.append_if
           (TransactionService.append_if [] velocity_pattern) amount_pattern)
        time_pattern).

(** What every pattern reported for an account, out of [n] analysed
    transactions, satisfies. *)
Definition reported (account_id : string) (n : nat) (p : TransactionPattern.t) : Prop :=
  TransactionPattern.account_id p = account_id
  /\ In (TransactionPattern.pattern_type p) ["VELOCITY"; "AMOUNT"; "TEMPORAL"]
  /\ (0 < TransactionPattern.confidence_score p)%Q
  /\ (TransactionPattern.confidence_score p <= 1)%Q
  /\ (3 <= TransactionPattern.frequency_count p <= n)%nat
  /\ TransactionPattern.is_active p = true.

(** The violation has a detection time. *)
Definition has_detection_time (v : ComplianceViolation.t) : bool :=
  match ComplianceViolation.detected_at v with Some _ => true | None => false end.

(** The payload with the required fields only. *)
Definition minimal_payload (account_id : string) (amount : Q) : gmap string pyval :=
  <["account_id" := PyStr account_id]>
  (<["amount" := PyFloat amount]>
  (<["transaction_type" := PyStr "DEBIT"]> ∅)).

(** ** Sample data of the unit tests *)

Module Samples.

(** [Transaction(account_id=a, amount=q, transaction_type="DEBIT")] with
    timestamp [ts], as stored. *)
Definition tx (i : Z) (a : string) (q : Q) (ts : Z) : Transaction.t :=
  Transaction.mk i ("TXN" +:+ a) a q "AUD" "DEBIT" None None None None
    (Some "ONLINE") (Some "AUS") None None ts false 0 "PENDING".

Definition recent_context (l : list Transaction.t) : gmap string ctxval :=
  <["recent_transactions" := CTransactions l]> ∅.

(** Twelve o'clock, in microseconds. *)
Definition noon : Z := hours 12.

Definition minutes (m : Z) : Z := m * 60 * 1000000.

(** [n] transactions of 1000.0 on account [a], three minutes apart,
    from half an hour before [noon]. *)
Fixpoint every_three_minutes (a : string) (n : nat) : list Transaction.t :=
  match n with
  | O => []
  | S k =>
      (every_three_minutes a k ++
       [tx 0 a 1000 (noon - minutes 30 + minutes (3 * Z.of_nat k))])%list
  end.

(** A rule patched to raise, as in the service's error-handling test. *)
Definition raising_rule : ComplianceRuleInterface.t :=
  ComplianceRuleInterface.mk (fun _ _ _ => Raise (RuleError "Rule error"))
    "APRA-TXN-LIMIT-001" "HIGH".

(** A session whose tables hold the rows [rows] and nothing else. *)
Definition session (rows : list Transaction.t) (outcomes : list bool) : Session.t :=
  Session.mk rows [] [] [] outcomes.

(** A stored violation of severity [sev] and status [st], with risk score
    [risk], detected at [d] and resolved at [r]. *)
Definition violation (sev st : string) (risk : Q) (d r : option Z) :
  ComplianceViolation.t :=
  ComplianceViolation.mk "TRANSACTION_LIMIT" sev "Manual entry" [] "APRA"
    "CPS 234" "CPS234-TXN-001" None risk 1 st None None d r ∅ [].

(** The smallest payload: the required fields only. *)
Definition required_only : gmap string pyval :=
  <["account_id" := PyStr "ACC123456"]>
  (<["amount" := PyFloat 5000]>
  (<["transaction_type" := PyStr "DEBIT"]> ∅)).

(** Transactions of the structuring test, at half past eleven. *)
Definition structuring (amounts : list Q) : list Transaction.t :=
  imap (fun i q => tx (Z.of_nat i + 1) "ACC123456" q (noon - minutes 30)) amounts.


(** One critical violation detected 25 hours ago and still open, and one
    resolved violation. *)
Definition one_overdue : list ComplianceViolation.t :=
  [violation "CRITICAL" "OPEN" 8 (Some 0) None;
   violation "HIGH" "RESOLVED" 2 (Some 0) (Some (hours 3))].

End Samples.

(** ** Comparisons, division, minimum and maximum *)

Section PyFacts.

#[local] Open Scope Q_scope.

Lemma gt_true (x y : Q) : Py.gt x y = true <-> y < x.
Proof.
  unfold Py.gt. rewrite negb_true_iff, <- not_true_iff_false, Qle_bool_iff.
  split; [apply Qnot_le_lt | apply Qlt_not_le].
Qed.

Lemma gt_false (x y : Q) : Py.gt x y = false <-> x <= y.
Proof. unfold Py.gt. rewrite negb_false_iff. apply Qle_bool_iff. Qed.

Lemma lt_true (x y : Q) : Py.lt x y = true <-> x < y.
Proof. apply (gt_true y x). Qed.

Lemma lt_false (x y : Q) : Py.lt x y = false <-> y <= x.
Proof. apply (gt_false y x). Qed.

Lemma truediv_nonzero (x y : Q) : ~ y == 0 -> Py.truediv x y = Ok (x / y).
Proof.
  intros Hy. unfold Py.truediv.
  destruct (Qeq_bool y 0) eqn:E; [|reflexivity].
  apply Qeq_bool_iff in E. contradiction.
Qed.

Lemma truediv_zero (x y : Q) : y == 0 -> Py.truediv x y = Raise ZeroDivisionError.
Proof.
  intros Hy. unfold Py.truediv. apply Qeq_bool_iff in Hy. now rewrite Hy.
Qed.

Lemma min2_Qmin (a b : Q) : Py.min2 a b == Qmin a b.
Proof.
  unfold Py.min2. destruct (Py.lt b a) eqn:E.
  - apply lt_true in E. symmetry. apply Q.min_r. now apply Qlt_le_weak.
  - apply lt_false in E. symmetry. now apply Q.min_l.
Qed.


Lemma max2_cases (a b : Q) :
  (Py.max2 a b = a /\ b <= a) \/ (Py.max2 a b = b /\ a < b).
Proof.
  unfold Py.max2. destruct (Py.gt b a) eqn:E.
  - right. split; [reflexivity | now apply gt_true].
  - left. split; [reflexivity | now apply gt_false].
Qed.

(** The running maximum is an item and bounds every item. *)
Lemma fold_max2_spec (xs : list Q) (x : Q) :
  In (fold_left Py.max2 xs x) (x :: xs)
  /\ Forall (fun r => r <= fold_left Py.max2 xs x) (x :: xs).
Proof.
  revert x. induction xs as [|y ys IH]; intros x; cbn [fold_left].
  - split; [now left | constructor; [apply Qle_refl | constructor]].
  - destruct (IH (Py.max2 x y)) as [Hin Hall].
    apply Forall_cons_iff in Hall as [Hm Hall].
    destruct (max2_cases x y) as [[E Hle]|[E Hlt]]; rewrite E in *.
    + split.
      * destruct Hin as [<-|Hin]; [now left | now right; right].
      * constructor; [exact Hm|]. constructor; [|exact Hall].
        eapply Qle_trans; eassumption.
    + split.
      * destruct Hin as [<-|Hin]; [right; now left | now right; right].
      * constructor; [|constructor; [exact Hm | exact Hall]].
        eapply Qle_trans; [apply Qlt_le_weak; eassumption | exact Hm].
Qed.

Lemma max_of_spec (l : list Q) (m : Q) :
  Py.max_of l = Ok m -> In m l /\ Forall (fun r => r <= m) l.
Proof.
  destruct l as [|x xs]; cbn; [discriminate|].
  intros [= <-]. apply fold_max2_spec.
Qed.

Lemma max_of_nonempty (l : list Q) : l <> [] -> exists m, Py.max_of l = Ok m.
Proof. destruct l; [congruence | intros _; eexists; reflexivity]. Qed.

End PyFacts.

(** ** Transaction Limit Rule *)

(** C2, as stated, fails for a limit of zero: the transaction exceeds the
    limit, and the rule raises instead of returning a violation. *)
Lemma limit_rule_zero_limit_raises :
  (0 < Transaction.amount (Samples.tx 1 "TEST001" 5 Samples.noon))%Q
  /\ APRATransactionLimitRule.evaluate 0 Samples.noon
       (Samples.tx 1 "TEST001" 5 Samples.noon) ∅ = Raise ZeroDivisionError.
Proof. split; reflexivity. Qed.

(** C2 (amended): an amount up to the limit, the limit included, gives no
    violation; an amount above a non-zero limit gives one violation of
    severity HIGH, with risk score min(amount/limit, 10), excess amount
    amount - limit and violation percentage amount/limit * 100. *)
Theorem limit_rule_evaluate (limit_amount : Q) (now : Z) (tx : Transaction.t)
  (context : gmap string ctxval) :
  let amount := Transaction.amount tx in
  ((amount <= limit_amount)%Q ->
   APRATransactionLimitRule.evaluate limit_amount now tx context = Ok None)
  /\ ((limit_amount < amount)%Q -> ~ (limit_amount == 0)%Q ->
      exists v,
        APRATransactionLimitRule.evaluate limit_amount now tx context = Ok (Some v)
        /\ ComplianceViolation.severity v = "HIGH"
        /\ ComplianceViolation.risk_score v = Py.min2 (amount / limit_amount) 10
        /\ (ComplianceViolation.risk_score v == Qmin (amount / limit_amount) 10)%Q
        /\ ComplianceViolation.violation_data v !! "excess_amount"
           = Some (JNum (amount - limit_amount))
        /\ ComplianceViolation.violation_data v !! "violation_percentage"
           = Some (JNum (amount / limit_amount * 100))).
Proof.
  intros amount. unfold APRATransactionLimitRule.evaluate. fold amount. split.
  - intros Hle. apply gt_false in Hle. now rewrite Hle.
  - intros Hlt Hnz. apply gt_true in Hlt. rewrite Hlt.
    rewrite (truediv_nonzero _ _ Hnz). cbn [Py.bind].
    eexists. split; [reflexivity|]. cbn.
    repeat split; try reflexivity. apply min2_Qmin.
Qed.

Lemma limit_rule_evaluate_witness :
  APRATransactionLimitRule.evaluate 10000 Samples.noon
    (Samples.tx 1 "TEST001" 10000 Samples.noon) ∅ = Ok None
  /\ exists v,
       APRATransactionLimitRule.evaluate 10000 Samples.noon
         (Samples.tx 1 "TEST001" 15000 Samples.noon) ∅ = Ok (Some v)
       /\ ComplianceViolation.severity v = "HIGH"
       /\ (ComplianceViolation.risk_score v == 3 # 2)%Q.
Proof.
  split.
  - apply (limit_rule_evaluate 10000 Samples.noon
             (Samples.tx 1 "TEST001" 10000 Samples.noon) ∅).
    vm_compute. discriminate.
  - destruct (proj2 (limit_rule_evaluate 10000 Samples.noon
                       (Samples.tx 1 "TEST001" 15000 Samples.noon) ∅))
      as (v & Hv & Hsev & Hrisk & _).
    + reflexivity.
    + vm_compute. discriminate.
    + exists v. repeat split; try assumption. rewrite Hrisk. reflexivity.
Defined.

(** ** Velocity Rule *)

Lemma inject_Z_nonzero (z : Z) : z <> 0 -> ~ (inject_Z z == 0)%Q.
Proof. intros Hz H. apply Hz. unfold Qeq in H. cbn in H. lia. Qed.

Lemma filter_andb {A : Type} (f g : A -> bool) (l : list A) :
  List.filter (fun x => f x && g x) l = List.filter f (List.filter g l).
Proof.
  induction l as [|x l IH]; cbn; [reflexivity|].
  destruct (g x); cbn; destruct (f x); cbn; now rewrite ?IH.
Qed.

(** The window of the rule, cut out of the account's own transactions. *)
Lemma recent_hour_of_account (now : Z) (tx : Transaction.t)
  (recent : list Transaction.t) :
  APRAVelocityRule.recent_hour_transactions now tx recent
  = List.filter (fun t => Transaction.transaction_timestamp t >=? now - hours 1)
      (List.filter
         (fun t => (Transaction.account_id t =? Transaction.account_id tx)%string)
         recent).
Proof. unfold APRAVelocityRule.recent_hour_transactions. apply filter_andb. Qed.




(** C4: the outcome of the velocity rule is the same for two contexts
    whose recent transactions agree on the transactions of the evaluated
    transaction's account, whatever they hold for other accounts. *)
Theorem velocity_rule_ignores_other_accounts (max_transactions_per_hour : Z)
  (max_amount_per_hour : Q) (now : Z) (tx : Transaction.t)
  (context1 context2 : gmap string ctxval) (recent1 recent2 : list Transaction.t) :
  get_recent_transactions context1 = Ok recent1 ->
  get_recent_transactions context2 = Ok recent2 ->
  List.filter
    (fun t => (Transaction.account_id t =? Transaction.account_id tx)%string) recent1
  = List.filter
      (fun t => (Transaction.account_id t =? Transaction.account_id tx)%string) recent2 ->
  APRAVelocityRule.evaluate max_transactions_per_hour max_amount_per_hour
    now tx context1
  = APRAVelocityRule.evaluate max_transactions_per_hour max_amount_per_hour
      now tx context2.
Proof.
  intros H1 H2 Hsame. unfold APRAVelocityRule.evaluate.
  rewrite H1, H2. cbn [Py.bind].
  now rewrite !recent_hour_of_account, Hsame.
Qed.

(** The regression test: ten transactions on another account, one new
    transaction, a maximum of five per hour. *)
Lemma velocity_rule_ignores_other_accounts_witness :
  APRAVelocityRule.evaluate 5 50000 Samples.noon
    (Samples.tx 1 "TEST001" 1000 Samples.noon)
    (Samples.recent_context (Samples.every_three_minutes "DIFFERENT_ACCOUNT" 10))
  = Ok None.
Proof.
  rewrite (velocity_rule_ignores_other_accounts 5 50000 Samples.noon
             (Samples.tx 1 "TEST001" 1000 Samples.noon)
             (Samples.recent_context
                (Samples.every_three_minutes "DIFFERENT_ACCOUNT" 10))
             (Samples.recent_context [])
             (Samples.every_three_minutes "DIFFERENT_ACCOUNT" 10) []
             eq_refl eq_refl eq_refl).
  reflexivity.
Defined.

(** ** Compliance evaluator and risk aggregator *)

Section Evaluator.

Variables (now : Z) (tx : Transaction.t) (context : gmap string ctxval).

#[local] Abbreviation contrib := (contribution now tx context).

Lemma evaluate_rule_contribution (acc : list ComplianceViolation.t)
  (rule : ComplianceRuleInterface.t) :
  ComplianceService.evaluate_rule now tx context acc rule
  = (acc ++ contrib rule)%list.
Proof.
  unfold ComplianceService.evaluate_rule, contribution.
  destruct (ComplianceRuleInterface.evaluate rule now tx context) as [[v|]|e];
    now rewrite ?app_nil_r.
Qed.

Lemma fold_evaluate_rule (rules : list ComplianceRuleInterface.t)
  (acc : list ComplianceViolation.t) :
  fold_left (ComplianceService.evaluate_rule now tx context) rules acc
  = (acc ++ flat_map contrib rules)%list.
Proof.
  revert acc. induction rules as [|r rules IH]; intros acc; cbn.
  - now rewrite app_nil_r.
  - now rewrite IH, evaluate_rule_contribution, <- app_assoc.
Qed.

Lemma run_rules_flat_map (rules : list ComplianceRuleInterface.t) :
  ComplianceService.run_rules rules now tx context = flat_map contrib rules.
Proof. unfold ComplianceService.run_rules. now rewrite fold_evaluate_rule. Qed.

Lemma contribution_raising (rule : ComplianceRuleInterface.t) :
  Py.is_ok (ComplianceRuleInterface.evaluate rule now tx context) = false ->
  contrib rule = [].
Proof.
  unfold contribution.
  now destruct (ComplianceRuleInterface.evaluate rule now tx context) as [[v|]|e].
Qed.

Lemma flat_map_without_raising (rules : list ComplianceRuleInterface.t) :
  flat_map contrib rules
  = flat_map contrib
      (List.filter
         (fun r => Py.is_ok (ComplianceRuleInterface.evaluate r now tx context))
         rules).
Proof.
  induction rules as [|r rules IH]; cbn; [reflexivity|].
  destruct (Py.is_ok (ComplianceRuleInterface.evaluate r now tx context)) eqn:E.
  - cbn. now rewrite IH.
  - now rewrite (contribution_raising r E), IH.
Qed.

Lemma contribution_transaction_id (rule : ComplianceRuleInterface.t) :
  Forall (fun v => ComplianceViolation.transaction_id v = Some (Transaction.id tx))
    (contrib rule).
Proof.
  unfold contribution.
  destruct (ComplianceRuleInterface.evaluate rule now tx context) as [[v|]|e];
    repeat constructor.
Qed.

Lemma run_rules_transaction_id (rules : list ComplianceRuleInterface.t) :
  Forall (fun v => ComplianceViolation.transaction_id v = Some (Transaction.id tx))
    (ComplianceService.run_rules rules now tx context).
Proof.
  rewrite run_rules_flat_map.
  induction rules as [|r rules IH]; cbn; [constructor|].
  apply Forall_app. split; [apply contribution_transaction_id | exact IH].
Qed.

End Evaluator.

(** The session after the violations are added and after they are
    flushed. *)
Lemma add_all_pending (vs : list ComplianceViolation.t) (s : Session.t) :
  ComplianceService.add_all s vs
  = Session.mk (Session.transactions s) (Session.violations s) (Session.patterns s)
      (Session.pending s ++ map Session.EViolation vs) (Session.commit_outcomes s).
Proof.
  unfold ComplianceService.add_all. revert s.
  induction vs as [|v vs IH]; intros s; cbn.
  - rewrite app_nil_r. now destruct s.
  - rewrite IH. cbn. now rewrite <- app_assoc.
Qed.

Lemma insert_violations (vs : list ComplianceViolation.t) (s : Session.t) :
  fold_left Session.insert_row (map Session.EViolation vs) s
  = Session.mk (Session.transactions s) (Session.violations s ++ vs)
      (Session.patterns s) (Session.pending s) (Session.commit_outcomes s).
Proof.
  revert s. induction vs as [|v vs IH]; intros s; cbn.
  - rewrite app_nil_r. now destruct s.
  - rewrite IH. cbn. now rewrite <- app_assoc.
Qed.

Lemma flush_add_all (vs : list ComplianceViolation.t) (s : Session.t) :
  Session.pending s = [] ->
  Session.flush (ComplianceService.add_all s vs) []
  = Session.mk (Session.transactions s) (Session.violations s ++ vs)
      (Session.patterns s) [] (Session.commit_outcomes s).
Proof.
  intros Hpend. unfold Session.flush. rewrite add_all_pending.
  cbn [Session.pending]. rewrite Hpend, app_nil_l, insert_violations.
  reflexivity.
Qed.

Lemma commit_refused (s : Session.t) (dirty : list Transaction.t) (rest : list bool) :
  Session.commit_outcomes s = false :: rest ->
  Session.commit s dirty
  = (Raise PersistenceError,
     Session.mk (Session.transactions s) (Session.violations s)
       (Session.patterns s) (Session.pending s) rest).
Proof. intros H. unfold Session.commit. now rewrite H. Qed.

Lemma commit_accepted (s : Session.t) (dirty : list Transaction.t) :
  Session.accepts_next s = true ->
  Session.commit s dirty
  = (Ok tt,
     Session.mk (Session.transactions (Session.flush s dirty))
       (Session.violations (Session.flush s dirty))
       (Session.patterns (Session.flush s dirty))
       (Session.pending (Session.flush s dirty)) (Session.next_outcomes s)).
Proof.
  unfold Session.accepts_next, Session.commit.
  destruct (Session.commit_outcomes s) as [|[|] rest]; cbn; congruence.
Qed.

(** The two ways the call ends when the database accepts the first
    commit. *)
Lemma evaluate_transaction_empty (rules : list ComplianceRuleInterface.t)
  (now : Z) (tx : Transaction.t) (s : Session.t) :
  ComplianceService.run_rules rules now tx
    (ComplianceService._build_evaluation_context s now tx) = [] ->
  ComplianceService.evaluate_transaction rules now tx s = (Ok [], tx, s).
Proof.
  intros E. unfold ComplianceService.evaluate_transaction. rewrite E.
  cbn. now destruct s.
Qed.

Lemma evaluate_transaction_nonempty (rules : list ComplianceRuleInterface.t)
  (now : Z) (tx : Transaction.t) (s : Session.t)
  (v : ComplianceViolation.t) (vs : list ComplianceViolation.t) :
  ComplianceService.run_rules rules now tx
    (ComplianceService._build_evaluation_context s now tx) = v :: vs ->
  Session.accepts_next s = true ->
  exists m outcome s',
    Py.max_of (map ComplianceViolation.risk_score (v :: vs)) = Ok m
    /\ ComplianceService.evaluate_transaction rules now tx s
       = (outcome,
          Transaction.set_risk_score
            (Transaction.set_compliance_status
               (Transaction.set_is_flagged tx true) "UNDER_REVIEW") m,
          s')
    /\ (Session.accepts_second s = true -> outcome = Ok (v :: vs)).
Proof.
  intros E Hacc. unfold ComplianceService.evaluate_transaction. rewrite E.
  rewrite commit_accepted by (now rewrite add_all_pending).
  destruct (max_of_nonempty (map ComplianceViolation.risk_score (v :: vs)))
    as [m Hm]; [discriminate|].
  rewrite Hm. exists m.
  match goal with
  | |- context [Session.commit ?a ?b] =>
      destruct (Session.commit a b) as [[[]|e] s3] eqn:Ec
  end.
  - do 2 eexists. split; [reflexivity|]. split; [reflexivity|]. reflexivity.
  - do 2 eexists. split; [reflexivity|]. split; [reflexivity|].
    intros Hsec. exfalso. revert Ec.
    rewrite commit_accepted; [discriminate|].
    unfold Session.accepts_next, Session.next_outcomes.
    rewrite add_all_pending. exact Hsec.
Qed.

(** C1: when the collected list of violations is empty, the call returns
    it and leaves the transaction and the session as they were; when it is
    not empty and the violations are committed, the transaction is
    flagged, its status is UNDER_REVIEW and its risk score is the maximum
    of the violations' risk scores. *)
Theorem evaluate_transaction_risk_aggregation
  (rules : list ComplianceRuleInterface.t) (now : Z) (tx : Transaction.t)
  (s : Session.t) :
  let violations :=
    ComplianceService.run_rules rules now tx
      (ComplianceService._build_evaluation_context s now tx) in
  (violations = [] ->
   ComplianceService.evaluate_transaction rules now tx s = (Ok [], tx, s))
  /\ (violations <> [] -> Session.accepts_next s = true ->
      exists outcome tx' s',
        ComplianceService.evaluate_transaction rules now tx s = (outcome, tx', s')
        /\ Transaction.is_flagged tx' = true
        /\ Transaction.compliance_status tx' = "UNDER_REVIEW"
        /\ Py.max_of (map ComplianceViolation.risk_score violations)
           = Ok (Transaction.risk_score tx')
        /\ In (Transaction.risk_score tx')
             (map ComplianceViolation.risk_score violations)
        /\ Forall (fun r => (r <= Transaction.risk_score tx')%Q)
             (map ComplianceViolation.risk_score violations)
        /\ (Session.accepts_second s = true -> outcome = Ok violations)).
Proof.
  intros violations. split.
  - apply evaluate_transaction_empty.
  - intros Hne Hacc. destruct violations as [|v vs] eqn:Ev; [congruence|].
    destruct (evaluate_transaction_nonempty rules now tx s v vs Ev Hacc)
      as (m & outcome & s' & Hm & Hrun & Hok).
    destruct (max_of_spec _ _ Hm) as [Hin Hall].
    exists outcome. do 2 eexists. split; [exact Hrun|].
    cbn [Transaction.is_flagged Transaction.compliance_status
         Transaction.risk_score Transaction.set_risk_score
         Transaction.set_compliance_status Transaction.set_is_flagged].
    repeat split; auto.
Qed.

Lemma evaluate_transaction_risk_aggregation_witness :
  exists outcome tx' s',
    ComplianceService.evaluate_transaction ComplianceService._initialize_rules
      Samples.noon (Samples.tx 1 "TEST001" 20000 Samples.noon)
      (Samples.session [Samples.tx 1 "TEST001" 20000 Samples.noon] [])
    = (outcome, tx', s')
    /\ Transaction.is_flagged tx' = true
    /\ Transaction.compliance_status tx' = "UNDER_REVIEW"
    /\ (Transaction.risk_score tx' == 2)%Q.
Proof.
  destruct (proj2 (evaluate_transaction_risk_aggregation
                     ComplianceService._initialize_rules Samples.noon
                     (Samples.tx 1 "TEST001" 20000 Samples.noon)
                     (Samples.session [Samples.tx 1 "TEST001" 20000 Samples.noon] [])))
    as (outcome & tx' & s' & Hrun & Hflag & Hstatus & Hmax & _).
  - vm_compute. discriminate.
  - reflexivity.
  - exists outcome, tx', s'. repeat split; try assumption.
    enough (Ok (Transaction.risk_score tx') = Ok (20000 # 10000)%Q) as [= ->]
      by reflexivity.
    rewrite <- Hmax. vm_compute. reflexivity.
Defined.

(** C5: the list the rules produce is the one the rules that do not raise
    produce, rule by rule in the registry's order; every violation in it
    carries the id of the evaluated transaction; and the call returns that
    list whatever rule raised, as long as the database accepts the
    commits. *)
Theorem evaluate_transaction_skips_raising_rules
  (rules : list ComplianceRuleInterface.t) (now : Z) (tx : Transaction.t)
  (s : Session.t) :
  let context := ComplianceService._build_evaluation_context s now tx in
  let violations := ComplianceService.run_rules rules now tx context in
  violations
  = ComplianceService.run_rules
      (List.filter
         (fun r => Py.is_ok (ComplianceRuleInterface.evaluate r now tx context))
         rules)
      now tx context
  /\ violations = flat_map (contribution now tx context) rules
  /\ Forall
       (fun v => ComplianceViolation.transaction_id v = Some (Transaction.id tx))
       violations
  /\ (Session.accepts_next s = true -> Session.accepts_second s = true ->
      exists tx' s',
        ComplianceService.evaluate_transaction rules now tx s
        = (Ok violations, tx', s')).
Proof.
  intros context violations. subst violations.
  split; [|split; [|split]].
  - rewrite !run_rules_flat_map. apply flat_map_without_raising.
  - apply run_rules_flat_map.
  - apply run_rules_transaction_id.
  - intros H1 H2.
    destruct (ComplianceService.run_rules rules now tx context) as [|v vs] eqn:E.
    + exists tx, s. now apply evaluate_transaction_empty.
    + destruct (evaluate_transaction_nonempty rules now tx s v vs E H1)
        as (m & outcome & s' & _ & Hrun & Hok).
      eexists _, s'. rewrite Hrun, (Hok H2). reflexivity.
Qed.

Lemma evaluate_transaction_skips_raising_rules_witness :
  exists v tx' s',
    ComplianceService.evaluate_transaction
      [Samples.raising_rule; APRAVelocityRule.new 10 50000;
       APRATransactionLimitRule.new 10000]
      Samples.noon (Samples.tx 1 "TEST001" 20000 Samples.noon)
      (Samples.session [] [])
    = (Ok [v], tx', s')
    /\ ComplianceViolation.violation_type v = "TRANSACTION_LIMIT"
    /\ ComplianceViolation.transaction_id v = Some 1.
Proof.
  pose proof (evaluate_transaction_skips_raising_rules
    [Samples.raising_rule; APRAVelocityRule.new 10 50000;
     APRATransactionLimitRule.new 10000]
    Samples.noon (Samples.tx 1 "TEST001" 20000 Samples.noon)
    (Samples.session [] [])) as (_ & Hflat & _ & Hok).
  destruct (Hok eq_refl eq_refl) as (tx' & s' & Hrun).
  rewrite Hflat in Hrun.
  eexists _, tx', s'. split; [exact Hrun|]. split; reflexivity.
Defined.

(** C6, as stated, fails: the violations and the transaction's update are
    written by two commits, and when the database refuses the second one
    the violation is in its table while the stored transaction is not
    flagged. *)
Lemma evaluate_transaction_half_applied :
  let run :=
    ComplianceService.evaluate_transaction ComplianceService._initialize_rules
      Samples.noon (Samples.tx 1 "TEST001" 20000 Samples.noon)
      (Samples.session [Samples.tx 1 "TEST001" 20000 Samples.noon] [true; false]) in
  run.1.1 = Raise PersistenceError
  /\ map ComplianceViolation.violation_type (Session.violations run.2)
     = ["TRANSACTION_LIMIT"]
  /\ map Transaction.is_flagged (Session.transactions run.2) = [false].
Proof. vm_compute. repeat split. Qed.

(** C6 (amended): on a session with nothing pending and a non-empty list
    of violations, a refusal of the first commit leaves the tables and the
    transaction as they were; the transaction's update is written by a
    second commit, and a refusal of that one leaves the violations in
    their table and the transactions table as it was. *)
Theorem evaluate_transaction_commit_failures
  (rules : list ComplianceRuleInterface.t) (now : Z) (tx : Transaction.t)
  (s : Session.t) (rest : list bool) :
  let violations :=
    ComplianceService.run_rules rules now tx
      (ComplianceService._build_evaluation_context s now tx) in
  Session.pending s = [] ->
  violations <> [] ->
  (Session.commit_outcomes s = false :: rest ->
   exists s',
     ComplianceService.evaluate_transaction rules now tx s
     = (Raise PersistenceError, tx, s')
     /\ Session.violations s' = Session.violations s
     /\ Session.transactions s' = Session.transactions s)
  /\ (Session.commit_outcomes s = true :: false :: rest ->
      exists tx' s',
        ComplianceService.evaluate_transaction rules now tx s
        = (Raise PersistenceError, tx', s')
        /\ Session.violations s' = (Session.violations s ++ violations)%list
        /\ Session.transactions s' = Session.transactions s
        /\ Transaction.is_flagged tx' = true).
Proof.
  intros violations Hpend Hne. unfold ComplianceService.evaluate_transaction.
  fold violations. destruct violations as [|v vs] eqn:Ev; [congruence|].
  split; intros Hout.
  - rewrite (commit_refused _ _ rest) by (now rewrite add_all_pending).
    eexists. split; [reflexivity|]. now rewrite add_all_pending.
  - rewrite commit_accepted
      by (unfold Session.accepts_next; now rewrite add_all_pending, Hout).
    destruct (max_of_nonempty (map ComplianceViolation.risk_score (v :: vs)))
      as [m Hm]; [discriminate|].
    rewrite Hm.
    erewrite commit_refused
      by (unfold Session.next_outcomes; rewrite add_all_pending; cbn;
          rewrite Hout; reflexivity).
    do 2 eexists. split; [reflexivity|].
    rewrite (flush_add_all _ _ Hpend). cbn. repeat split.
Qed.

Lemma evaluate_transaction_commit_failures_witness :
  exists tx' s',
    ComplianceService.evaluate_transaction ComplianceService._initialize_rules
      Samples.noon (Samples.tx 1 "TEST001" 20000 Samples.noon)
      (Samples.session [Samples.tx 1 "TEST001" 20000 Samples.noon] [true; false])
    = (Raise PersistenceError, tx', s')
    /\ length (Session.violations s') = 1%nat
    /\ Session.transactions s' = [Samples.tx 1 "TEST001" 20000 Samples.noon].
Proof.
  destruct (proj2 (evaluate_transaction_commit_failures
                     ComplianceService._initialize_rules Samples.noon
                     (Samples.tx 1 "TEST001" 20000 Samples.noon)
                     (Samples.session [Samples.tx 1 "TEST001" 20000 Samples.noon]
                        [true; false])
                     [] eq_refl ltac:(vm_compute; discriminate)) eq_refl)
    as (tx' & s' & Hrun & Hv & Ht & _).
  exists tx', s'. split; [exact Hrun|]. split; [|exact Ht].
  rewrite Hv. reflexivity.
Defined.

(** ** Overdue computation *)

Lemma hours_elapsed_gt (delta k : Z) :
  Py.gt ((inject_Z delta / 1000000) / 3600)%Q (inject_Z k) = (delta >? hours k).
Proof.
  apply eq_true_iff_eq. rewrite gt_true, Z.gtb_lt. unfold hours.
  unfold Qlt, Qdiv, Qmult, Qinv, inject_Z. cbn. lia.
Qed.

Lemma status_in_closed (st : string) :
  existsb (String.eqb st) ["RESOLVED"; "CLOSED"] = true
  <-> st = "RESOLVED" \/ st = "CLOSED".
Proof.
  cbn. rewrite !orb_true_iff, !String.eqb_eq. intuition discriminate.
Qed.

(** C7: the overdue check is false for a RESOLVED or CLOSED violation; for
    a CRITICAL one in another state it holds iff more than 24 hours lie
    between detected_at and now, for a HIGH one iff more than 72 hours;
    for every other severity it is false. *)
Theorem is_overdue_spec (v : ComplianceViolation.t) (now : Z) :
  let closed :=
    ComplianceViolation.status v = "RESOLVED"
    \/ ComplianceViolation.status v = "CLOSED" in
  (closed -> ComplianceViolation.is_overdue v now = Ok false)
  /\ (forall d, ~ closed -> ComplianceViolation.detected_at v = Some d ->
      ComplianceViolation.severity v = "CRITICAL" ->
      ComplianceViolation.is_overdue v now = Ok (now - d >? hours 24))
  /\ (forall d, ~ closed -> ComplianceViolation.detected_at v = Some d ->
      ComplianceViolation.severity v = "HIGH" ->
      ComplianceViolation.is_overdue v now = Ok (now - d >? hours 72))
  /\ (ComplianceViolation.severity v <> "CRITICAL" ->
      ComplianceViolation.severity v <> "HIGH" ->
      ComplianceViolation.is_overdue v now = Ok false).
Proof.
  intros closed. unfold ComplianceViolation.is_overdue,
    ComplianceViolation.is_critical, ComplianceViolation.hours_since_detection.
  pose proof (status_in_closed (ComplianceViolation.status v)) as Hst.
  fold closed in Hst.
  destruct (existsb (String.eqb (ComplianceViolation.status v))
              ["RESOLVED"; "CLOSED"]) eqn:Ex.
  - assert closed by now apply Hst.
    repeat split; intros; try reflexivity; contradiction.
  - split; [|split; [|split]].
    + intros Hc. apply Hst in Hc. discriminate.
    + intros d _ Hd Hsev. rewrite Hsev, Hd. cbn [String.eqb Py.bind].
      cbn. f_equal. apply (hours_elapsed_gt (now - d) 24).
    + intros d _ Hd Hsev. rewrite Hsev, Hd. cbn. f_equal.
      apply (hours_elapsed_gt (now - d) 72).
    + intros Hc Hh.
      apply String.eqb_neq in Hc, Hh. now rewrite Hc, Hh.
Qed.

Lemma is_overdue_spec_witness :
  ComplianceViolation.is_overdue
    (Samples.violation "CRITICAL" "OPEN" 8 (Some 0) None) (hours 25) = Ok true
  /\ ComplianceViolation.is_overdue
       (Samples.violation "CRITICAL" "OPEN" 8 (Some 0) None) (hours 24) = Ok false
  /\ ComplianceViolation.is_overdue
       (Samples.violation "HIGH" "INVESTIGATING" 2 (Some 0) None) (hours 72 + 1)
     = Ok true
  /\ ComplianceViolation.is_overdue
       (Samples.violation "CRITICAL" "RESOLVED" 8 (Some 0) (Some 5)) (hours 25)
     = Ok false
  /\ ComplianceViolation.is_overdue
       (Samples.violation "MEDIUM" "OPEN" 8 (Some 0) None) (hours 1000) = Ok false.
Proof.
  split; [|split; [|split; [|split]]].
  - apply (proj1 (proj2 (is_overdue_spec
      (Samples.violation "CRITICAL" "OPEN" 8 (Some 0) None) (hours 25))) 0);
      [intros [H|H]; discriminate H | reflexivity | reflexivity].
  - apply (proj1 (proj2 (is_overdue_spec
      (Samples.violation "CRITICAL" "OPEN" 8 (Some 0) None) (hours 24))) 0);
      [intros [H|H]; discriminate H | reflexivity | reflexivity].
  - apply (proj1 (proj2 (proj2 (is_overdue_spec
      (Samples.violation "HIGH" "INVESTIGATING" 2 (Some 0) None) (hours 72 + 1)))) 0);
      [intros [H|H]; discriminate H | reflexivity | reflexivity].
  - apply (proj1 (is_overdue_spec
      (Samples.violation "CRITICAL" "RESOLVED" 8 (Some 0) (Some 5)) (hours 25))).
    left. reflexivity.
  - apply (proj2 (proj2 (proj2 (is_overdue_spec
      (Samples.violation "MEDIUM" "OPEN" 8 (Some 0) None) (hours 1000)))));
      discriminate.
Defined.

(** ** Dashboard aggregator *)

Lemma count_overdue_length (l : list ComplianceViolation.t) (now : Z) (k : nat) :
  Dashboard.count_overdue l now = Ok k ->
  k = length (List.filter (overdue_at now) l).
Proof.
  revert k. induction l as [|v l IH]; intros k; cbn.
  - now intros [= <-].
  - unfold overdue_at.
    destruct (ComplianceViolation.is_overdue v now) as [b|e]; cbn; [|discriminate].
    destruct (Dashboard.count_overdue l now) as [n|e]; cbn; [|discriminate].
    intros [= <-]. rewrite (IH n eq_refl). now destruct b.
Qed.

Lemma length_nonzero {A : Type} (l : list A) :
  l <> [] -> ~ (inject_Z (Z.of_nat (length l)) == 0)%Q.
Proof.
  intros Hne. apply inject_Z_nonzero. destruct l; [congruence | cbn; lia].
Qed.

Lemma length_positive {A : Type} (l : list A) :
  l <> [] -> (0 < inject_Z (Z.of_nat (length l)))%Q.
Proof.
  intros Hne. change 0%Q with (inject_Z 0). rewrite <- Zlt_Qlt.
  destruct l; [congruence | cbn; lia].
Qed.

Lemma base_score_nonempty (l : list ComplianceViolation.t) :
  l <> [] ->
  Dashboard.base_score l
  = Ok (Py.max2 0
          (100 - Py.sum (map ComplianceViolation.risk_score l)
                 / (inject_Z (Z.of_nat (length l)) * 10) * 100))%Q.
Proof.
  intros Hne. unfold Dashboard.base_score.
  pose proof (length_positive l Hne) as Hpos.
  assert (Hgt : (0 < inject_Z (Z.of_nat (length l)) * 10)%Q) by lra.
  apply gt_true in Hgt. rewrite Hgt.
  rewrite truediv_nonzero; [reflexivity|].
  apply gt_true in Hgt. lra.
Qed.



Lemma average_resolution_time_ok (l : list ComplianceViolation.t) :
  Dashboard.average_resolution_time l
  = Ok match List.filter Dashboard.has_both_times l with
       | [] => 0%Q
       | v :: r =>
           (Py.sum (map Dashboard.resolution_hours (v :: r))
            / inject_Z (Z.of_nat (length (v :: r))))%Q
       end.
Proof.
  unfold Dashboard.average_resolution_time.
  destruct (List.filter Dashboard.has_both_times l) as [|v r]; [reflexivity|].
  apply truediv_nonzero. now apply length_nonzero.
Qed.




(** ** Pattern detector *)

Lemma get_transactions_by_account_length (s : Session.t) (account_id : string)
  (limit : nat) (start_date : Z) :
  length (TransactionService.get_transactions_by_account s account_id limit 0
            (Some start_date) None)
  = Nat.min limit
      (length
         (List.filter
            (fun r =>
               (Transaction.transaction_timestamp r >=? start_date)
               && (Transaction.account_id r =? account_id)%string)
            (Session.transactions s))).
Proof.
  unfold TransactionService.get_transactions_by_account.
  rewrite length_take, drop_0. f_equal.
  rewrite (Permutation_length (merge_sort_Permutation _ _)).
  now rewrite filter_andb.
Qed.

(** C9: when the account has fewer than 5 transactions in the 30 days
    before now, pattern detection returns the empty list and leaves the
    session, its patterns table included, as it was. *)
Theorem detect_suspicious_patterns_insufficient_data (s : Session.t) (now : Z)
  (account_id : string) :
  (length (List.filter (in_detection_window now account_id) (Session.transactions s))
   < 5)%nat ->
  TransactionService.detect_suspicious_patterns s now account_id = (Ok [], s).
Proof.
  intros Hfew. unfold TransactionService.detect_suspicious_patterns.
  rewrite get_transactions_by_account_length.
  fold (in_detection_window now account_id).
  destruct (Nat.ltb_spec
              (Nat.min 100
                 (length (List.filter (in_detection_window now account_id)
                            (Session.transactions s)))) 5) as [_|Hge];
    [reflexivity | lia].
Qed.

Lemma detect_suspicious_patterns_insufficient_data_witness :
  TransactionService.detect_suspicious_patterns
    (Samples.session (Samples.structuring [9500; 9800; 9200; 9900]%Q) [])
    Samples.noon "ACC123456"
  = (Ok [],
     Samples.session (Samples.structuring [9500; 9800; 9200; 9900]%Q) []).
Proof.
  apply (detect_suspicious_patterns_insufficient_data
           (Samples.session (Samples.structuring [9500; 9800; 9200; 9900]%Q) [])
           Samples.noon "ACC123456").
  vm_compute. lia.
Defined.

(** With a fifth transaction the same four amounts are reported as one
    AMOUNT pattern of frequency 4, and the pattern is stored. *)
Example detect_suspicious_patterns_structuring :
  let run :=
    TransactionService.detect_suspicious_patterns
      (Samples.session (Samples.structuring [9500; 9800; 9200; 9900; 100]%Q) [])
      Samples.noon "ACC123456" in
  (exists p, run.1 = Ok [p]
             /\ TransactionPattern.pattern_type p = "AMOUNT"
             /\ TransactionPattern.frequency_count p = 4%nat)
  /\ length (Session.patterns run.2) = 1%nat.
Proof. vm_compute. split; [eexists; repeat split | reflexivity]. Qed.

(** ** Transaction creation *)

Lemma validate_required (data : gmap string pyval) :
  required_fields_valid data ->
  TransactionService._validate_transaction_data data
  = match data !! "currency" with
    | None => Ok tt
    | Some c =>
        bad <- TransactionService.len_is_not_3 c ;;
        if bad then Raise (DataQualityViolation "currency") else Ok tt
    end.
Proof.
  intros (Hreq & (x & Hx & Hbx) & (y & Hy & Hby)).
  unfold TransactionService._validate_transaction_data.
  rewrite Hreq, Hx, Hy. cbn [Py.bind]. now rewrite Hbx, Hby.
Qed.






Lemma accepts_all_next (l : list bool) :
  Forall (eq true) l -> hd true l = true /\ Forall (eq true) (tl l).
Proof.
  intros H. destruct H as [|b l <- H]; cbn; split; auto.
Qed.




(** ** Further properties of the rules *)

Lemma existsb_eqb_In (c : string) (l : list string) :
  existsb (String.eqb c) l = true <-> In c l.
Proof.
  rewrite existsb_exists. split.
  - intros (x & Hin & Heq). apply String.eqb_eq in Heq. now subst.
  - intros Hin. exists c. split; [exact Hin | apply String.eqb_refl].
Qed.

(** X1: the Geographic Rule returns a violation exactly when the
    transaction's country is in the rule's list, which is the default list
    when the rule is built with no list or with the empty one; the
    violation is CRITICAL with risk score 8 and confidence 1 and asks for
    enhanced due diligence.  The rule never raises. *)
Theorem geographic_rule_evaluate (high_risk_countries : option (list string))
  (now : Z) (tx : Transaction.t) (context : gmap string ctxval) :
  let countries :=
    match high_risk_countries with
    | Some (c :: l) => c :: l
    | _ => ["AFG"; "IRN"; "IRQ"; "PRK"; "SYR"; "YEM"]
    end in
  let outcome :=
    ComplianceRuleInterface.evaluate (APRAGeographicRule.new high_risk_countries)
      now tx context in
  (forall c, Transaction.location_country tx = Some c -> In c countries ->
   exists v,
     outcome = Ok (Some v)
     /\ ComplianceViolation.severity v = "CRITICAL"
     /\ ComplianceViolation.risk_score v = 8%Q
     /\ ComplianceViolation.confidence_score v = 1%Q
     /\ ComplianceViolation.violation_data v !! "country_code" = Some (JStr c)
     /\ ComplianceViolation.violation_data v !! "requires_enhanced_due_diligence"
        = Some (JBool true))
  /\ ((forall c, Transaction.location_country tx = Some c -> ~ In c countries) ->
      outcome = Ok None).
Proof.
  intros countries outcome.
  assert (Hc : APRAGeographicRule.countries_or_default high_risk_countries = countries).
  { destruct high_risk_countries as [[|c l]|]; reflexivity. }
  subst outcome. cbn [ComplianceRuleInterface.evaluate APRAGeographicRule.new].
  rewrite Hc. unfold APRAGeographicRule.evaluate, APRAGeographicRule.country_in.
  split.
  - intros c Hloc Hin. rewrite Hloc.
    apply existsb_eqb_In in Hin. rewrite Hin.
    eexists. split; [reflexivity|]. cbn. repeat split.
  - intros Hno. destruct (Transaction.location_country tx) as [c|]; [|reflexivity].
    destruct (existsb (String.eqb c) countries) eqn:E; [|reflexivity].
    apply existsb_eqb_In in E. now destruct (Hno c eq_refl).
Qed.

Lemma geographic_rule_evaluate_witness :
  exists v,
    ComplianceRuleInterface.evaluate (APRAGeographicRule.new (Some []))
      Samples.noon
      (Transaction.mk 1 "TXN001" "TEST001" 5000 "AUD" "DEBIT" None None None None
         (Some "ONLINE") (Some "IRN") None None Samples.noon false 0 "PENDING")
      ∅ = Ok (Some v)
    /\ ComplianceViolation.severity v = "CRITICAL"
    /\ ComplianceViolation.risk_score v = 8%Q.
Proof.
  destruct (proj1 (geographic_rule_evaluate (Some []) Samples.noon
    (Transaction.mk 1 "TXN001" "TEST001" 5000 "AUD" "DEBIT" None None None None
       (Some "ONLINE") (Some "IRN") None None Samples.noon false 0 "PENDING")
    ∅) "IRN" eq_refl) as (v & Hv & Hsev & Hrisk & _).
  - right. left. reflexivity.
  - exists v. split; [exact Hv|]. split; assumption.
Defined.

Lemma filter_implied {A : Type} (f g : A -> bool) (l : list A) :
  (forall x, f x = true -> g x = true) ->
  List.filter f (List.filter g l) = List.filter f l.
Proof.
  intros Himp. induction l as [|x l IH]; cbn; [reflexivity|].
  destruct (g x) eqn:Eg; cbn.
  - now rewrite IH.
  - destruct (f x) eqn:Ef; [|exact IH].
    apply Himp in Ef. congruence.
Qed.

Lemma hours_1_24 : hours 1 <= hours 24.
Proof. unfold hours. lia. Qed.

Lemma built_context_recent (s : Session.t) (now : Z) (tx : Transaction.t) :
  get_recent_transactions (ComplianceService._build_evaluation_context s now tx)
  = Ok (List.filter
          (fun r =>
             (Transaction.account_id r =? Transaction.account_id tx)%string
             && (Transaction.transaction_timestamp r >=? now - hours 24))
          (Session.transactions s)).
Proof. reflexivity. Qed.

Lemma recent_hour_of_built_context (s : Session.t) (now : Z) (tx : Transaction.t) :
  APRAVelocityRule.recent_hour_transactions now tx
    (List.filter
       (fun r =>
          (Transaction.account_id r =? Transaction.account_id tx)%string
          && (Transaction.transaction_timestamp r >=? now - hours 24))
       (Session.transactions s))
  = APRAVelocityRule.recent_hour_transactions now tx (Session.transactions s).
Proof.
  unfold APRAVelocityRule.recent_hour_transactions. apply filter_implied.
  intros r. unfold APRAVelocityRule.in_last_hour_of.
  rewrite !andb_true_iff, !Z.geb_le. pose proof hours_1_24. intuition lia.
Qed.

(** X2: the 24-hour, same-account context the evaluator builds loses
    nothing the Velocity Rule needs: on it the rule returns what it
    returns on the whole transactions table. *)
Theorem velocity_rule_on_built_context (max_transactions_per_hour : Z)
  (max_amount_per_hour : Q) (now : Z) (tx : Transaction.t) (s : Session.t) :
  APRAVelocityRule.evaluate max_transactions_per_hour max_amount_per_hour now tx
    (ComplianceService._build_evaluation_context s now tx)
  = APRAVelocityRule.evaluate max_transactions_per_hour max_amount_per_hour now tx
      (<["recent_transactions" := CTransactions (Session.transactions s)]> ∅).
Proof.
  unfold APRAVelocityRule.evaluate. rewrite built_context_recent.
  change (get_recent_transactions
            (<["recent_transactions" := CTransactions (Session.transactions s)]> ∅))
    with (Ok (Session.transactions s) : result (list Transaction.t)).
  cbn [Py.bind]. now rewrite recent_hour_of_built_context.
Qed.

(** X3: none of the three rules the service is built with raises on a
    context the evaluator builds, so every rule that triggers contributes
    its violation. *)
Theorem service_rules_never_raise (s : Session.t) (now : Z) (tx : Transaction.t) :
  Forall
    (fun rule =>
       Py.is_ok
         (ComplianceRuleInterface.evaluate rule now tx
            (ComplianceService._build_evaluation_context s now tx)) = true)
    ComplianceService._initialize_rules.
Proof.
  repeat constructor.
  - cbn [ComplianceRuleInterface.evaluate APRATransactionLimitRule.new].
    unfold APRATransactionLimitRule.evaluate.
    destruct (Py.gt (Transaction.amount tx) 10000); reflexivity.
  - cbn [ComplianceRuleInterface.evaluate APRAVelocityRule.new].
    unfold APRAVelocityRule.evaluate. rewrite built_context_recent.
    cbn [Py.bind].
    match goal with |- context [if ?b then _ else _] => destruct b end;
      reflexivity.
  - cbn [ComplianceRuleInterface.evaluate APRAGeographicRule.new].
    unfold APRAGeographicRule.evaluate.
    match goal with |- context [if ?b then _ else _] => destruct b end;
      reflexivity.
Qed.

(** X4: a transaction that is already in the table, as it is when
    [create_transaction] evaluates it, and is no older than an hour is
    itself among the matching recent transactions, so the Velocity Rule
    counts it twice: the count is at least 2. *)
Theorem stored_transaction_counted_twice (s : Session.t) (now : Z)
  (tx : Transaction.t) :
  In tx (Session.transactions s) ->
  now - hours 1 <= Transaction.transaction_timestamp tx ->
  exists recent,
    get_recent_transactions (ComplianceService._build_evaluation_context s now tx)
    = Ok recent
    /\ In tx (APRAVelocityRule.recent_hour_transactions now tx recent)
    /\ 2 <= APRAVelocityRule.transaction_count
              (APRAVelocityRule.recent_hour_transactions now tx recent).
Proof.
  intros Hin Hts. eexists. split; [apply built_context_recent|].
  rewrite recent_hour_of_built_context.
  assert (Hmem : In tx (APRAVelocityRule.recent_hour_transactions now tx
                          (Session.transactions s))).
  { apply filter_In. split; [exact Hin|].
    unfold APRAVelocityRule.in_last_hour_of.
    rewrite andb_true_iff, Z.geb_le, String.eqb_eq. split; [lia | reflexivity]. }
  split; [exact Hmem|].
  unfold APRAVelocityRule.transaction_count.
  destruct (APRAVelocityRule.recent_hour_transactions now tx (Session.transactions s));
    [destruct Hmem | cbn [length]; lia].
Qed.

Lemma stored_transaction_counted_twice_witness :
  2 <= APRAVelocityRule.transaction_count
         (APRAVelocityRule.recent_hour_transactions Samples.noon
            (Samples.tx 1 "TEST001" 1000 Samples.noon)
            [Samples.tx 1 "TEST001" 1000 Samples.noon]).
Proof.
  destruct (stored_transaction_counted_twice
              (Samples.session [Samples.tx 1 "TEST001" 1000 Samples.noon] [])
              Samples.noon (Samples.tx 1 "TEST001" 1000 Samples.noon))
    as (recent & Hrecent & _ & Hcount).
  - left. reflexivity.
  - vm_compute. discriminate.
  - vm_compute in Hrecent. injection Hrecent as <-. exact Hcount.
Defined.

(** ** Further properties of the evaluator *)

(** What no run changes. *)
Lemma evaluate_transaction_keeps_identity
  (rules : list ComplianceRuleInterface.t) (now : Z) (tx : Transaction.t)
  (s : Session.t) :
  let tx' := (ComplianceService.evaluate_transaction rules now tx s).1.2 in
  (Transaction.is_flagged tx = true -> Transaction.is_flagged tx' = true)
  /\ Transaction.id tx' = Transaction.id tx
  /\ Transaction.transaction_id tx' = Transaction.transaction_id tx
  /\ Transaction.account_id tx' = Transaction.account_id tx
  /\ Transaction.amount tx' = Transaction.amount tx
  /\ Transaction.transaction_timestamp tx' = Transaction.transaction_timestamp tx
  /\ (tx' = tx
      \/ (Transaction.is_flagged tx' = true
          /\ Transaction.compliance_status tx' = "UNDER_REVIEW")).
Proof.
  unfold ComplianceService.evaluate_transaction.
  destruct (ComplianceService.run_rules rules now tx
              (ComplianceService._build_evaluation_context s now tx)) as [|v vs].
  - cbn. repeat split; auto.
  - destruct (Session.commit _ []) as [[[]|e] s2].
    + destruct (max_of_nonempty (map ComplianceViolation.risk_score (v :: vs)))
        as [m ->]; [discriminate|].
      destruct (Session.commit _ _) as [[[]|e] s3]; cbn; repeat split; auto.
    + cbn. repeat split; auto.
Qed.

(** X5: whatever the rules and however the call ends, the evaluator keeps
    the transaction's identity and payload, never clears a flag that is
    set, and either leaves the compliance fields alone or sets the flag
    and the status UNDER_REVIEW. *)
Theorem evaluate_transaction_never_unflags
  (rules : list ComplianceRuleInterface.t) (now : Z) (tx : Transaction.t)
  (s : Session.t) :
  let tx' := (ComplianceService.evaluate_transaction rules now tx s).1.2 in
  (Transaction.is_flagged tx = true -> Transaction.is_flagged tx' = true)
  /\ Transaction.id tx' = Transaction.id tx
  /\ Transaction.transaction_id tx' = Transaction.transaction_id tx
  /\ Transaction.account_id tx' = Transaction.account_id tx
  /\ Transaction.amount tx' = Transaction.amount tx
  /\ Transaction.transaction_timestamp tx' = Transaction.transaction_timestamp tx
  /\ (tx' = tx
      \/ (Transaction.is_flagged tx' = true
          /\ Transaction.compliance_status tx' = "UNDER_REVIEW")).
Proof. apply evaluate_transaction_keeps_identity. Qed.

(** What an accepted run leaves in the session. *)
Lemma evaluate_transaction_accepted (rules : list ComplianceRuleInterface.t)
  (now : Z) (tx : Transaction.t) (s : Session.t) :
  let violations :=
    ComplianceService.run_rules rules now tx
      (ComplianceService._build_evaluation_context s now tx) in
  Session.pending s = [] ->
  Session.accepts_next s = true ->
  Session.accepts_second s = true ->
  violations <> [] ->
  exists tx' s',
    ComplianceService.evaluate_transaction rules now tx s = (Ok violations, tx', s')
    /\ Session.violations s' = (Session.violations s ++ violations)%list
    /\ Session.transactions s' = Session.update_row (Session.transactions s) tx'
    /\ Session.pending s' = []
    /\ (forall r, In r (Session.transactions s') ->
        Transaction.id r = Transaction.id tx -> r = tx').
Proof.
  intros violations Hpend H1 H2 Hne.
  unfold ComplianceService.evaluate_transaction. fold violations.
  destruct violations as [|v vs] eqn:Ev; [congruence|].
  rewrite commit_accepted by (now rewrite add_all_pending).
  destruct (max_of_nonempty (map ComplianceViolation.risk_score (v :: vs)))
    as [m ->]; [discriminate|].
  rewrite commit_accepted
    by (unfold Session.accepts_next, Session.next_outcomes;
        now rewrite add_all_pending).
  do 2 eexists. split; [reflexivity|].
  rewrite (flush_add_all _ _ Hpend). unfold Session.flush. cbn.
  repeat split.
  intros r Hin Hid. unfold Session.update_row in Hin.
  apply in_map_iff in Hin as (r0 & Hr & _). cbn in Hr.
  destruct (Transaction.id r0 =? Transaction.id tx) eqn:E; [now subst r|].
  subst r0. apply Z.eqb_neq in E. contradiction.
Qed.

(** X6: on a session with nothing pending, when the database accepts both
    commits a non-empty list of violations is appended to the violations
    table in the rules' order, every row of the transactions table with
    the transaction's id becomes the updated transaction, and nothing is
    left pending. *)
Theorem evaluate_transaction_persists (rules : list ComplianceRuleInterface.t)
  (now : Z) (tx : Transaction.t) (s : Session.t) :
  let violations :=
    ComplianceService.run_rules rules now tx
      (ComplianceService._build_evaluation_context s now tx) in
  Session.pending s = [] ->
  Session.accepts_next s = true ->
  Session.accepts_second s = true ->
  violations <> [] ->
  exists tx' s',
    ComplianceService.evaluate_transaction rules now tx s = (Ok violations, tx', s')
    /\ Session.violations s' = (Session.violations s ++ violations)%list
    /\ Session.transactions s' = Session.update_row (Session.transactions s) tx'
    /\ Session.pending s' = []
    /\ (forall r, In r (Session.transactions s') ->
        Transaction.id r = Transaction.id tx -> r = tx').
Proof. apply evaluate_transaction_accepted. Qed.

Lemma evaluate_transaction_persists_witness :
  exists tx' s',
    ComplianceService.evaluate_transaction ComplianceService._initialize_rules
      Samples.noon (Samples.tx 1 "TEST001" 20000 Samples.noon)
      (Samples.session [Samples.tx 1 "TEST001" 20000 Samples.noon] [])
    = (Ok (ComplianceService.run_rules ComplianceService._initialize_rules
             Samples.noon (Samples.tx 1 "TEST001" 20000 Samples.noon)
             (ComplianceService._build_evaluation_context
                (Samples.session [Samples.tx 1 "TEST001" 20000 Samples.noon] [])
                Samples.noon (Samples.tx 1 "TEST001" 20000 Samples.noon))),
       tx', s')
    /\ length (Session.violations s') = 1%nat
    /\ map Transaction.is_flagged (Session.transactions s') = [true].
Proof.
  destruct (evaluate_transaction_persists ComplianceService._initialize_rules
              Samples.noon (Samples.tx 1 "TEST001" 20000 Samples.noon)
              (Samples.session [Samples.tx 1 "TEST001" 20000 Samples.noon] [])
              eq_refl eq_refl eq_refl ltac:(vm_compute; discriminate))
    as (tx' & s' & Hrun & Hv & Ht & _ & _).
  exists tx', s'. split; [exact Hrun|]. split.
  - rewrite Hv. reflexivity.
  - rewrite Ht. vm_compute in Hrun. injection Hrun as <- _. reflexivity.
Defined.

Lemma minimal_payload_valid (account : string) (q : Q) :
  (0 < q)%Q ->
  TransactionService._validate_transaction_data (minimal_payload account q) = Ok tt.
Proof.
  intros Hq. rewrite validate_required; [reflexivity|].
  split; [reflexivity|]. split; eexists; (split; [reflexivity|]).
  - cbn. unfold Py.le. apply not_true_iff_false. rewrite Qle_bool_iff.
    now apply Qlt_not_le.
  - reflexivity.
Qed.

(** X7: [create_transaction] commits the new row before it evaluates it,
    so on an empty table the very first transaction of an account is
    counted twice by the Velocity Rule: an amount above 25000 alone gives a
    velocity violation with a count of 2 and a total of twice the amount,
    besides the limit violation. *)
Theorem first_transaction_counted_twice (now : Z) (uuid account : string) (q : Q)
  (outcomes : list bool) :
  (25000 < q)%Q ->
  Forall (eq true) outcomes ->
  exists tx' s' limit_violation velocity_violation,
    TransactionService.create_transaction ComplianceService._initialize_rules
      now uuid (minimal_payload account q) (Session.mk [] [] [] [] outcomes)
    = (Ok tx', s')
    /\ Session.violations s' = [limit_violation; velocity_violation]
    /\ ComplianceViolation.violation_type limit_violation = "TRANSACTION_LIMIT"
    /\ ComplianceViolation.violation_type velocity_violation = "SUSPICIOUS_PATTERN"
    /\ ComplianceViolation.violation_data velocity_violation !! "transaction_count"
       = Some (JInt 2)
    /\ ComplianceViolation.violation_data velocity_violation !! "total_amount"
       = Some (JNum (0 + q + q)).
Proof.
  intros Hq Hall.
  destruct (accepts_all_next _ Hall) as [H1 Hrest].
  destruct (accepts_all_next _ Hrest) as [H2 Hrest2].
  destruct (accepts_all_next _ Hrest2) as [H3 _].
  unfold TransactionService.create_transaction.
  rewrite minimal_payload_valid by lra.
  change (TransactionService.new_transaction
            (Session.next_id (Session.mk [] [] [] [] outcomes)) uuid now
            (minimal_payload account q))
    with (Ok (Transaction.mk 1 uuid account q "AUD" "DEBIT" (Some "") None None
                None (Some "ONLINE") (Some "AUS") None None now false 0 "PENDING")).
  set (tx := Transaction.mk 1 uuid account q "AUD" "DEBIT" (Some "") None None
               None (Some "ONLINE") (Some "AUS") None None now false 0 "PENDING").
  cbv beta iota. rewrite commit_accepted by exact H1.
  unfold Session.flush. cbn [Session.add Session.pending Session.transactions
    Session.violations Session.patterns Session.commit_outcomes fold_left
    Session.insert_row app Session.update_row].
  set (s2 := Session.mk [tx] [] [] [] _).
  assert (Hgt : Py.gt q 10000 = true) by (apply gt_true; lra).
  assert (Hgt2 : Py.gt (0 + q + q) 50000 = true) by (apply gt_true; lra).
  assert (Hwin : (now >=? now - hours 1) = true)
    by (apply Z.geb_le; unfold hours; lia).
  assert (Hwin24 : (now >=? now - hours 24) = true)
    by (apply Z.geb_le; unfold hours; lia).
  assert (Hrun : exists v1 v2,
    ComplianceService.run_rules ComplianceService._initialize_rules now tx
      (ComplianceService._build_evaluation_context s2 now tx) = [v1; v2]
    /\ ComplianceViolation.violation_type v1 = "TRANSACTION_LIMIT"
    /\ ComplianceViolation.violation_type v2 = "SUSPICIOUS_PATTERN"
    /\ ComplianceViolation.violation_data v2 !! "transaction_count" = Some (JInt 2)
    /\ ComplianceViolation.violation_data v2 !! "total_amount"
       = Some (JNum (0 + q + q))).
  { rewrite run_rules_flat_map.
    unfold ComplianceService._initialize_rules. cbn [flat_map].
    unfold contribution at 1.
    cbn [ComplianceRuleInterface.evaluate APRATransactionLimitRule.new].
    unfold APRATransactionLimitRule.evaluate.
    cbn [Transaction.amount tx]. rewrite Hgt.
    rewrite (truediv_nonzero q 10000) by (intros H; discriminate H).
    cbn [Py.bind].
    unfold contribution at 1.
    cbn [ComplianceRuleInterface.evaluate APRAVelocityRule.new].
    unfold APRAVelocityRule.evaluate. rewrite built_context_recent.
    cbn [Py.bind]. rewrite recent_hour_of_built_context.
    unfold APRAVelocityRule.recent_hour_transactions,
      APRAVelocityRule.in_last_hour_of.
    cbn [Session.transactions s2 List.filter Transaction.transaction_timestamp
         Transaction.account_id tx].
    rewrite Hwin, String.eqb_refl. cbn [andb].
    unfold APRAVelocityRule.transaction_count, APRAVelocityRule.total_amount.
    cbn [length map Transaction.amount tx Py.sum fold_left].
    change (Z.of_nat 1 + 1) with 2. rewrite Hgt2.
    cbn [orb Z.gtb Z.compare Pos.compare Pos.compare_cont Z.mul Pos.mul].
    rewrite (truediv_nonzero (inject_Z 2) (inject_Z 10))
      by (intros H; discriminate H).
    rewrite (truediv_nonzero (0 + q + q) 50000) by (intros H; discriminate H).
    cbn [Py.bind].
    unfold contribution at 1.
    cbn [ComplianceRuleInterface.evaluate APRAGeographicRule.new].
    unfold APRAGeographicRule.evaluate. cbn.
    do 2 eexists. split; [reflexivity|]. cbn. repeat split. }
  destruct Hrun as (v1 & v2 & Hrun & Hp).
  destruct (evaluate_transaction_accepted ComplianceService._initialize_rules
              now tx s2 eq_refl H2 H3) as (tx' & s' & Heval & Hv & _).
  { rewrite Hrun. discriminate. }
  rewrite Heval. exists tx', s', v1, v2. split; [reflexivity|].
  split; [rewrite Hv, Hrun; reflexivity | exact Hp].
Qed.

Lemma first_transaction_counted_twice_witness :
  exists tx' s',
    TransactionService.create_transaction ComplianceService._initialize_rules
      Samples.noon "TXN001" (minimal_payload "ACC123456" 26000)
      (Session.mk [] [] [] [] [])
    = (Ok tx', s')
    /\ length (Session.violations s') = 2%nat.
Proof.
  destruct (first_transaction_counted_twice Samples.noon "TXN001" "ACC123456"
              26000 [] ltac:(reflexivity) (List.Forall_nil _))
    as (tx' & s' & v1 & v2 & Hrun & Hv & _).
  exists tx', s'. split; [exact Hrun|]. rewrite Hv. reflexivity.
Defined.

(** ** Violation lifecycle *)

Section Lifecycle.

Variables (violation_id : string)
          (f : ComplianceViolation.t -> ComplianceViolation.t).

Lemma find_assign_first (rows : list (string * ComplianceViolation.t))
  (v : ComplianceViolation.t) :
  ComplianceService.find_violation rows violation_id = Some v ->
  ComplianceService.find_violation
    (ComplianceService.assign_first rows violation_id f) violation_id
  = Some (f v).
Proof.
  unfold ComplianceService.find_violation.
  induction rows as [|[k w] rows IH];
    cbn -[ComplianceService.has_violation_id]; [discriminate|].
  destruct (ComplianceService.has_violation_id violation_id (k, w)) eqn:E;
    cbn -[ComplianceService.has_violation_id].
  - intros [= <-]. unfold ComplianceService.has_violation_id in *. cbn in *.
    now rewrite E.
  - rewrite E. exact IH.
Qed.

Lemma find_assign_first_other (rows : list (string * ComplianceViolation.t))
  (other : string) :
  other <> violation_id ->
  ComplianceService.find_violation
    (ComplianceService.assign_first rows violation_id f) other
  = ComplianceService.find_violation rows other.
Proof.
  intros Hne. unfold ComplianceService.find_violation.
  induction rows as [|[k w] rows IH];
    cbn -[ComplianceService.has_violation_id]; [reflexivity|].
  destruct (ComplianceService.has_violation_id violation_id (k, w)) eqn:E;
    cbn -[ComplianceService.has_violation_id].
  - unfold ComplianceService.has_violation_id in *. cbn in *.
    apply String.eqb_eq in E. subst k.
    apply String.eqb_neq in Hne. rewrite String.eqb_sym in Hne.
    now rewrite Hne.
  - destruct (ComplianceService.has_violation_id other (k, w)); [reflexivity|].
    exact IH.
Qed.

Lemma assign_first_keys (rows : list (string * ComplianceViolation.t)) :
  map fst (ComplianceService.assign_first rows violation_id f) = map fst rows.
Proof.
  induction rows as [|[k w] rows IH];
    cbn -[ComplianceService.has_violation_id]; [reflexivity|].
  destruct (ComplianceService.has_violation_id violation_id (k, w));
    cbn -[ComplianceService.has_violation_id]; now rewrite ?IH.
Qed.

Lemma assign_first_twice (g : ComplianceViolation.t -> ComplianceViolation.t)
  (rows : list (string * ComplianceViolation.t)) :
  ComplianceService.assign_first
    (ComplianceService.assign_first rows violation_id f) violation_id g
  = ComplianceService.assign_first rows violation_id (fun v => g (f v)).
Proof.
  induction rows as [|[k w] rows IH];
    cbn -[ComplianceService.has_violation_id]; [reflexivity|].
  destruct (ComplianceService.has_violation_id violation_id (k, w)) eqn:E;
    cbn -[ComplianceService.has_violation_id].
  - unfold ComplianceService.has_violation_id in *. cbn in *. now rewrite E.
  - now rewrite E, IH.
Qed.

End Lifecycle.

(** X8: [resolve_violation] returns False and changes nothing when no row
    has the id; when the commit is refused it raises and the table is as
    before; otherwise it returns True, the first row with the id is
    RESOLVED with the given notes, resolver and time, every row with
    another id reads as before, and the ids of the table are unchanged. *)
Theorem resolve_violation_spec (rows : list (string * ComplianceViolation.t))
  (accepted : bool) (now : Z) (violation_id resolution_notes resolved_by : string) :
  let run :=
    ComplianceService.resolve_violation rows accepted now violation_id
      resolution_notes resolved_by in
  (ComplianceService.find_violation rows violation_id = None ->
   run = (Ok false, rows))
  /\ (forall v, ComplianceService.find_violation rows violation_id = Some v ->
      accepted = false -> run = (Raise PersistenceError, rows))
  /\ (forall v, ComplianceService.find_violation rows violation_id = Some v ->
      accepted = true ->
      exists v',
        run.1 = Ok true
        /\ ComplianceService.find_violation run.2 violation_id = Some v'
        /\ ComplianceViolation.status v' = "RESOLVED"
        /\ ComplianceViolation.resolved_at v' = Some now
        /\ ComplianceViolation.resolution_notes v' = Some resolution_notes
        /\ ComplianceViolation.assigned_to v' = Some resolved_by
        /\ ComplianceViolation.risk_score v' = ComplianceViolation.risk_score v
        /\ ComplianceViolation.severity v' = ComplianceViolation.severity v
        /\ ComplianceViolation.detected_at v' = ComplianceViolation.detected_at v
        /\ (forall other, other <> violation_id ->
            ComplianceService.find_violation run.2 other
            = ComplianceService.find_violation rows other)
        /\ map fst run.2 = map fst rows).
Proof.
  intros run. subst run. unfold ComplianceService.resolve_violation.
  split; [|split].
  - now intros ->.
  - now intros v -> ->.
  - intros v Hv ->. rewrite Hv. cbn [fst snd].
    exists (ComplianceViolation.set_resolved v now resolution_notes resolved_by).
    split; [reflexivity|].
    split; [exact (find_assign_first violation_id _ rows v Hv)|]. cbn.
    repeat split.
    + intros other Hne. now apply find_assign_first_other.
    + apply assign_first_keys.
Qed.

Lemma resolve_violation_spec_witness :
  exists v',
    (ComplianceService.resolve_violation
       [("V-1", Samples.violation "HIGH" "OPEN" 2 (Some 0) None);
        ("V-2", Samples.violation "CRITICAL" "OPEN" 8 (Some 0) None)]
       true (hours 30) "V-2" "verified by phone" "officer").1 = Ok true
    /\ ComplianceService.find_violation
         (ComplianceService.resolve_violation
            [("V-1", Samples.violation "HIGH" "OPEN" 2 (Some 0) None);
             ("V-2", Samples.violation "CRITICAL" "OPEN" 8 (Some 0) None)]
            true (hours 30) "V-2" "verified by phone" "officer").2 "V-2"
       = Some v'
    /\ ComplianceViolation.status v' = "RESOLVED"
    /\ ComplianceViolation.resolved_at v' = Some (hours 30).
Proof.
  destruct (proj2 (proj2 (resolve_violation_spec
    [("V-1", Samples.violation "HIGH" "OPEN" 2 (Some 0) None);
     ("V-2", Samples.violation "CRITICAL" "OPEN" 8 (Some 0) None)]
    true (hours 30) "V-2" "verified by phone" "officer"))
    (Samples.violation "CRITICAL" "OPEN" 8 (Some 0) None) eq_refl eq_refl)
    as (v' & Hok & Hfind & Hst & Hres & _).
  exists v'. repeat split; assumption.
Defined.

(** X9: resolving a violation that is already resolved is not refused and
    not a no-op: the later call overwrites the time, the notes and the
    resolver, and the table is the one the later call alone would
    leave. *)
Theorem resolve_violation_again_overwrites
  (rows : list (string * ComplianceViolation.t)) (violation_id : string)
  (now1 now2 : Z) (notes1 notes2 by1 by2 : string) :
  let once :=
    ComplianceService.resolve_violation rows true now1 violation_id notes1 by1 in
  ComplianceService.resolve_violation once.2 true now2 violation_id notes2 by2
  = ComplianceService.resolve_violation rows true now2 violation_id notes2 by2.
Proof.
  intros once. subst once. unfold ComplianceService.resolve_violation.
  destruct (ComplianceService.find_violation rows violation_id) as [v|] eqn:E.
  - cbn [snd]. rewrite (find_assign_first _ _ _ _ E). f_equal.
    now rewrite assign_first_twice.
  - cbn [snd]. now rewrite E.
Qed.

(** X10: the overdue check raises only in one case: TypeError for a
    violation without a detection time that is neither RESOLVED nor CLOSED
    and is CRITICAL or HIGH. *)
Theorem is_overdue_raises_iff (v : ComplianceViolation.t) (now : Z) (e : exn) :
  ComplianceViolation.is_overdue v now = Raise e
  <-> e = TypeError
      /\ ComplianceViolation.detected_at v = None
      /\ ComplianceViolation.status v <> "RESOLVED"
      /\ ComplianceViolation.status v <> "CLOSED"
      /\ (ComplianceViolation.severity v = "CRITICAL"
          \/ ComplianceViolation.severity v = "HIGH").
Proof.
  unfold ComplianceViolation.is_overdue, ComplianceViolation.is_critical,
    ComplianceViolation.hours_since_detection.
  pose proof (status_in_closed (ComplianceViolation.status v)) as Hst.
  destruct (existsb (String.eqb (ComplianceViolation.status v))
              ["RESOLVED"; "CLOSED"]).
  - split; [discriminate|]. intros (_ & _ & H1 & H2 & _).
    destruct (proj1 Hst eq_refl); contradiction.
  - assert (Hopen : ComplianceViolation.status v <> "RESOLVED"
                    /\ ComplianceViolation.status v <> "CLOSED").
    { split; intros H; [assert (false = true) by (apply Hst; now left)
                       | assert (false = true) by (apply Hst; now right)];
        discriminate. }
    destruct (String.eqb_spec (ComplianceViolation.severity v) "CRITICAL") as [Hc|Hc];
      [|destruct (String.eqb_spec (ComplianceViolation.severity v) "HIGH") as [Hh|Hh]].
    + destruct (ComplianceViolation.detected_at v); cbn.
      * split; [discriminate | intros (_ & H & _); discriminate].
      * split; [intros [= <-]; tauto | intros (-> & _); reflexivity].
    + destruct (ComplianceViolation.detected_at v); cbn.
      * split; [discriminate | intros (_ & H & _); discriminate].
      * split; [intros [= <-]; tauto | intros (-> & _); reflexivity].
    + split; [discriminate | intros (_ & _ & _ & _ & [H|H]); contradiction].
Qed.

(** X11: a violation that is overdue stays overdue at every later time,
    as long as its fields are the same. *)
Theorem is_overdue_monotone (v : ComplianceViolation.t) (now later : Z) :
  ComplianceViolation.is_overdue v now = Ok true ->
  now <= later ->
  ComplianceViolation.is_overdue v later = Ok true.
Proof.
  unfold ComplianceViolation.is_overdue, ComplianceViolation.is_critical,
    ComplianceViolation.hours_since_detection.
  destruct (existsb (String.eqb (ComplianceViolation.status v))
              ["RESOLVED"; "CLOSED"]); [discriminate|].
  intros H Hle.
  destruct (ComplianceViolation.severity v =? "CRITICAL")%string.
  - destruct (ComplianceViolation.detected_at v) as [d|]; [|discriminate].
    cbn [Py.bind] in *. injection H as H. f_equal.
    assert (E1 : Py.gt (inject_Z (now - d) / 1000000 / 3600) 24
                 = (now - d >? hours 24))
      by apply (hours_elapsed_gt (now - d) 24).
    assert (E2 : Py.gt (inject_Z (later - d) / 1000000 / 3600) 24
                 = (later - d >? hours 24))
      by apply (hours_elapsed_gt (later - d) 24).
    rewrite E1 in H. rewrite E2.
    apply Z.gtb_lt in H. apply Z.gtb_lt. lia.
  - destruct (ComplianceViolation.severity v =? "HIGH")%string; [|discriminate].
    destruct (ComplianceViolation.detected_at v) as [d|]; [|discriminate].
    cbn [Py.bind] in *. injection H as H. f_equal.
    assert (E1 : Py.gt (inject_Z (now - d) / 1000000 / 3600) 72
                 = (now - d >? hours 72))
      by apply (hours_elapsed_gt (now - d) 72).
    assert (E2 : Py.gt (inject_Z (later - d) / 1000000 / 3600) 72
                 = (later - d >? hours 72))
      by apply (hours_elapsed_gt (later - d) 72).
    rewrite E1 in H. rewrite E2.
    apply Z.gtb_lt in H. apply Z.gtb_lt. lia.
Qed.

Lemma is_overdue_monotone_witness :
  ComplianceViolation.is_overdue
    (Samples.violation "CRITICAL" "OPEN" 8 (Some 0) None) (hours 100) = Ok true.
Proof.
  apply (is_overdue_monotone (Samples.violation "CRITICAL" "OPEN" 8 (Some 0) None)
           (hours 25) (hours 100)).
  - reflexivity.
  - vm_compute. discriminate.
Defined.

(** X12: once [resolve_violation] has resolved a violation, the stored
    row is not overdue at any time, whatever its severity and age. *)
Theorem resolved_violation_never_overdue
  (rows : list (string * ComplianceViolation.t)) (now : Z)
  (violation_id resolution_notes resolved_by : string) (v : ComplianceViolation.t) :
  ComplianceService.find_violation rows violation_id = Some v ->
  exists v',
    ComplianceService.find_violation
      (ComplianceService.resolve_violation rows true now violation_id
         resolution_notes resolved_by).2 violation_id = Some v'
    /\ forall later, ComplianceViolation.is_overdue v' later = Ok false.
Proof.
  intros Hv. unfold ComplianceService.resolve_violation. rewrite Hv. cbn [snd].
  exists (ComplianceViolation.set_resolved v now resolution_notes resolved_by).
  split; [exact (find_assign_first violation_id _ rows v Hv)|]. reflexivity.
Qed.

Lemma resolved_violation_never_overdue_witness :
  exists v',
    ComplianceService.find_violation
      (ComplianceService.resolve_violation
         [("V-2", Samples.violation "CRITICAL" "OPEN" 8 (Some 0) None)]
         true (hours 30) "V-2" "verified by phone" "officer").2 "V-2" = Some v'
    /\ ComplianceViolation.is_overdue v' (hours 1000) = Ok false.
Proof.
  destruct (resolved_violation_never_overdue
              [("V-2", Samples.violation "CRITICAL" "OPEN" 8 (Some 0) None)]
              (hours 30) "V-2" "verified by phone" "officer"
              (Samples.violation "CRITICAL" "OPEN" 8 (Some 0) None) eq_refl)
    as (v' & Hfind & Hover).
  exists v'. split; [exact Hfind | apply Hover].
Defined.

(** ** Further properties of the dashboard *)

Lemma count_overdue_is_ok (l : list ComplianceViolation.t) (now : Z) :
  Py.is_ok (Dashboard.count_overdue l now)
  = forallb (fun v => Py.is_ok (ComplianceViolation.is_overdue v now)) l.
Proof.
  induction l as [|v l IH]; cbn; [reflexivity|].
  destruct (ComplianceViolation.is_overdue v now) as [b|e]; cbn; [|reflexivity].
  rewrite <- IH. now destruct (Dashboard.count_overdue l now).
Qed.

Lemma is_overdue_with_detection_time (v : ComplianceViolation.t) (now : Z) :
  has_detection_time v = true ->
  Py.is_ok (ComplianceViolation.is_overdue v now) = true.
Proof.
  unfold has_detection_time, ComplianceViolation.is_overdue,
    ComplianceViolation.hours_since_detection.
  destruct (ComplianceViolation.detected_at v); [intros _|discriminate].
  repeat match goal with |- context [if ?b then _ else _] => destruct b end;
    reflexivity.
Qed.

(** X13: the dashboard is computed exactly when the overdue check of
    every violation is: one violation whose check raises makes the whole
    summary raise, and a table whose violations all have a detection time
    always gives a summary. *)
Theorem dashboard_raises_iff_overdue_raises (l : list ComplianceViolation.t)
  (now : Z) :
  Py.is_ok (Dashboard.get_compliance_dashboard l now)
  = forallb (fun v => Py.is_ok (ComplianceViolation.is_overdue v now)) l
  /\ (forallb has_detection_time l = true ->
      exists d, Dashboard.get_compliance_dashboard l now = Ok d).
Proof.
  assert (H : Py.is_ok (Dashboard.get_compliance_dashboard l now)
              = forallb (fun v => Py.is_ok (ComplianceViolation.is_overdue v now)) l).
  { rewrite <- count_overdue_is_ok.
    unfold Dashboard.get_compliance_dashboard.
    destruct l as [|v l']; [reflexivity|]. remember (v :: l') as l eqn:El.
    rewrite average_resolution_time_ok, base_score_nonempty by (subst; discriminate).
    now destruct (Dashboard.count_overdue l now). }
  split; [exact H|]. intros Hall.
  destruct (Dashboard.get_compliance_dashboard l now) as [d|e] eqn:E;
    [now exists d|].
  exfalso. cbn in H. symmetry in H. apply not_true_iff_false in H. apply H.
  apply forallb_forall. intros v Hin.
  apply is_overdue_with_detection_time.
  now apply (proj1 (forallb_forall _ _) Hall).
Qed.

Lemma dashboard_raises_iff_overdue_raises_witness :
  exists d, Dashboard.get_compliance_dashboard Samples.one_overdue (hours 25) = Ok d.
Proof.
  apply (proj2 (dashboard_raises_iff_overdue_raises Samples.one_overdue (hours 25))).
  reflexivity.
Defined.







Lemma filter_length_disjoint {A : Type} (p q : A -> bool) (l : list A) :
  (forall x, p x = true -> q x = false) ->
  (length (List.filter p l) + length (List.filter q l)
   = length (List.filter (fun x => p x || q x) l))%nat.
Proof.
  intros Hd. induction l as [|x l IH]; cbn; [reflexivity|].
  destruct (p x) eqn:Ep; cbn.
  - rewrite (Hd x Ep). cbn. lia.
  - destruct (q x); cbn; lia.
Qed.

Lemma filter_length_le {A : Type} (p : A -> bool) (l : list A) :
  (length (List.filter p l) <= length l)%nat.
Proof.
  induction l as [|x l IH]; cbn; [lia|]. destruct (p x); cbn; lia.
Qed.

Lemma filter_length_implies {A : Type} (p q : A -> bool) (l : list A) :
  (forall x, p x = true -> q x = true) ->
  (length (List.filter p l) <= length (List.filter q l))%nat.
Proof.
  intros Himp. induction l as [|x l IH]; cbn; [lia|].
  destruct (p x) eqn:Ep; cbn.
  - rewrite (Himp x Ep). cbn. lia.
  - destruct (q x); cbn; lia.
Qed.

Lemma overdue_at_open_critical_or_high (now : Z) (v : ComplianceViolation.t) :
  overdue_at now v = true ->
  Dashboard.status_in ["RESOLVED"; "CLOSED"] v = false
  /\ Dashboard.has_severity "CRITICAL" v || Dashboard.has_severity "HIGH" v = true.
Proof.
  unfold overdue_at, ComplianceViolation.is_overdue, Dashboard.status_in,
    Dashboard.has_severity, ComplianceViolation.is_critical.
  destruct (existsb (String.eqb (ComplianceViolation.status v))
              ["RESOLVED"; "CLOSED"]); [discriminate|].
  destruct (ComplianceViolation.severity v =? "CRITICAL")%string; [now split|].
  destruct (ComplianceViolation.severity v =? "HIGH")%string; [now split|].
  discriminate.
Qed.

Lemma severities_disjoint (a b : string) (v : ComplianceViolation.t) :
  a <> b -> Dashboard.has_severity a v = true -> Dashboard.has_severity b v = false.
Proof.
  unfold Dashboard.has_severity. intros Hne Ha.
  apply String.eqb_eq in Ha. apply String.eqb_neq. congruence.
Qed.

(** X15: in every summary the four severity counts together do not exceed
    the total (a violation of severity INFO or of an unknown severity is
    in the total only), open and resolved together do not exceed the
    total, and an overdue violation is always a CRITICAL or HIGH one that
    is not counted as resolved. *)
Theorem dashboard_count_invariants (l : list ComplianceViolation.t) (now : Z)
  (d : ComplianceDashboard.t) :
  Dashboard.get_compliance_dashboard l now = Ok d ->
  (ComplianceDashboard.critical_violations d + ComplianceDashboard.high_violations d
   + ComplianceDashboard.medium_violations d + ComplianceDashboard.low_violations d
   <= ComplianceDashboard.total_violations d)%nat
  /\ (ComplianceDashboard.open_violations d + ComplianceDashboard.resolved_violations d
      <= ComplianceDashboard.total_violations d)%nat
  /\ (ComplianceDashboard.overdue_violations d
      <= ComplianceDashboard.critical_violations d
         + ComplianceDashboard.high_violations d)%nat
  /\ (ComplianceDashboard.overdue_violations d
      + ComplianceDashboard.resolved_violations d
      <= ComplianceDashboard.total_violations d)%nat.
Proof.
  intros Hd. unfold Dashboard.get_compliance_dashboard in Hd.
  destruct l as [|v l']; [injection Hd as <-; cbn; lia|].
  remember (v :: l') as l eqn:El.
  rewrite average_resolution_time_ok, base_score_nonempty in Hd
    by (subst; discriminate).
  destruct (Dashboard.count_overdue l now) as [k|e] eqn:Ek; [|discriminate].
  cbn [Py.bind] in Hd. injection Hd as <-.
  cbn [ComplianceDashboard.critical_violations ComplianceDashboard.high_violations
       ComplianceDashboard.medium_violations ComplianceDashboard.low_violations
       ComplianceDashboard.total_violations ComplianceDashboard.open_violations
       ComplianceDashboard.resolved_violations
       ComplianceDashboard.overdue_violations].
  apply count_overdue_length in Ek. subst k. unfold Dashboard.count_if.
  clear El v l'. repeat split.
  - rewrite (filter_length_disjoint (Dashboard.has_severity "CRITICAL")
               (Dashboard.has_severity "HIGH"))
      by (intros x; now apply severities_disjoint).
    rewrite (filter_length_disjoint _ (Dashboard.has_severity "MEDIUM")).
    + rewrite (filter_length_disjoint _ (Dashboard.has_severity "LOW")).
      * apply filter_length_le.
      * intros x Hx. apply orb_true_iff in Hx as [Hx|Hx];
          [apply orb_true_iff in Hx as [Hx|Hx]|];
          revert Hx; now apply severities_disjoint.
    + intros x Hx. apply orb_true_iff in Hx as [Hx|Hx];
        revert Hx; now apply severities_disjoint.
  - rewrite filter_length_disjoint; [apply filter_length_le|].
    intros x. unfold Dashboard.status_in. cbn.
    rewrite !orb_false_r, orb_true_iff, !String.eqb_eq.
    intros [->| ->]; reflexivity.
  - rewrite (filter_length_disjoint (Dashboard.has_severity "CRITICAL")
               (Dashboard.has_severity "HIGH"))
      by (intros x; now apply severities_disjoint).
    apply filter_length_implies. intros x Hx.
    now apply overdue_at_open_critical_or_high in Hx.
  - rewrite filter_length_disjoint; [apply filter_length_le|].
    intros x Hx. now apply overdue_at_open_critical_or_high in Hx.
Qed.

Lemma dashboard_count_invariants_witness :
  exists d,
    Dashboard.get_compliance_dashboard Samples.one_overdue (hours 25) = Ok d
    /\ (ComplianceDashboard.overdue_violations d
        + ComplianceDashboard.resolved_violations d
        <= ComplianceDashboard.total_violations d)%nat.
Proof.
  eexists. split; [vm_compute; reflexivity|].
  apply (dashboard_count_invariants Samples.one_overdue (hours 25)).
  vm_compute. reflexivity.
Defined.

(** ** Further properties of transaction creation *)

Lemma check_required_ok (data : gmap string pyval) :
  TransactionService.check_required TransactionService.required_fields data = Ok tt
  <-> Forall (fun field => TransactionService.missing data field = false)
        ["account_id"; "amount"; "transaction_type"].
Proof.
  unfold TransactionService.required_fields.
  cbn [TransactionService.check_required].
  rewrite !Forall_cons_iff.
  destruct (TransactionService.missing data "account_id"),
    (TransactionService.missing data "amount"),
    (TransactionService.missing data "transaction_type");
    split; try discriminate; try reflexivity;
    try (intros (H1 & H2 & H3 & _); discriminate).
  intros _. repeat split. constructor.
Qed.

Lemma missing_false (data : gmap string pyval) (field : string) :
  TransactionService.missing data field = false
  <-> exists x, data !! field = Some x /\ x <> PyNone.
Proof.
  unfold TransactionService.missing. destruct (data !! field) as [[]|]; split;
    try discriminate; try (intros _; eexists; split; [reflexivity|discriminate]);
    try reflexivity; intros (x & H & Hx); congruence.
Qed.




Lemma check_required_error (data : gmap string pyval) (e : exn) :
  TransactionService.check_required TransactionService.required_fields data = Raise e ->
  (exists field, In field ["account_id"; "amount"; "transaction_type"]
                 /\ e = DataQualityViolation field)
  /\ (TransactionService.missing data "account_id" = true ->
      e = DataQualityViolation "account_id").
Proof.
  unfold TransactionService.required_fields.
  cbn [TransactionService.check_required].
  destruct (TransactionService.missing data "account_id").
  { intros [= <-]. split; [|reflexivity]. eexists. split; [|reflexivity]. now left. }
  destruct (TransactionService.missing data "amount").
  { intros [= <-]. split; [|discriminate]. eexists. split; [|reflexivity].
    right; now left. }
  destruct (TransactionService.missing data "transaction_type"); [|discriminate].
  intros [= <-]. split; [|discriminate]. eexists. split; [|reflexivity].
  right; right; now left.
Qed.

(** X17: a payload that validation refuses is refused before anything is
    stored: [create_transaction] raises the validation's error and leaves
    the session as it was.  The error is a DataQualityViolation naming
    account_id, amount, transaction_type or currency, or the TypeError of
    taking the length of a currency that is not a string; a missing
    account_id is reported first. *)
Theorem create_transaction_rejects_invalid (rules : list ComplianceRuleInterface.t)
  (now : Z) (uuid : string) (data : gmap string pyval) (s : Session.t) (e : exn) :
  TransactionService._validate_transaction_data data = Raise e ->
  TransactionService.create_transaction rules now uuid data s = (Raise e, s)
  /\ (e = TypeError
      \/ exists field,
           In field ["account_id"; "amount"; "transaction_type"; "currency"]
           /\ e = DataQualityViolation field)
  /\ (TransactionService.missing data "account_id" = true ->
      e = DataQualityViolation "account_id").
Proof.
  intros Hval. split.
  { unfold TransactionService.create_transaction. now rewrite Hval. }
  unfold TransactionService._validate_transaction_data in Hval.
  destruct (TransactionService.check_required
              TransactionService.required_fields data) as [[]|e0] eqn:Hreq.
  - apply check_required_ok in Hreq.
    apply Forall_cons_iff in Hreq as [Hacc Hreq].
    apply Forall_cons_iff in Hreq as [Hamt Hreq].
    apply Forall_cons_iff in Hreq as [Hty _].
    split; [|rewrite Hacc; discriminate].
    apply missing_false in Hamt as (x & Hx & _).
    apply missing_false in Hty as (y & Hy & _).
    rewrite Hx, Hy in Hval. cbn [Py.bind] in Hval.
    destruct (TransactionService.bad_amount x).
    { injection Hval as <-. right. eexists. split; [|reflexivity].
      right; now left. }
    destruct (TransactionService.bad_type y).
    { injection Hval as <-. right. eexists. split; [|reflexivity].
      right; right; now left. }
    destruct (data !! "currency") as [c|]; [|discriminate].
    destruct c as [| | | |c|]; cbn in Hval; try (injection Hval as <-; now left).
    destruct (String.length c =? 3)%nat; [discriminate|].
    injection Hval as <-. right. eexists. split; [|reflexivity].
    right; right; right; now left.
  - cbn [Py.bind] in Hval. injection Hval as <-.
    destruct (check_required_error data e0 Hreq) as ((field & Hin & ->) & Hfirst).
    split; [|exact Hfirst]. right. exists field. split; [|reflexivity].
    cbn in Hin |- *. tauto.
Qed.

Lemma create_transaction_rejects_invalid_witness :
  TransactionService.create_transaction ComplianceService._initialize_rules
    Samples.noon "TXN001"
    (<["amount" := PyFloat 0]> Samples.required_only) (Samples.session [] [])
  = (Raise (DataQualityViolation "amount"), Samples.session [] []).
Proof.
  apply (create_transaction_rejects_invalid ComplianceService._initialize_rules
           Samples.noon "TXN001" (<["amount" := PyFloat 0]> Samples.required_only)
           (Samples.session [] []) (DataQualityViolation "amount")).
  reflexivity.
Defined.

Section RoundTrip.

Variable uuid : string.

#[local] Abbreviation with_uuid :=
  (fun r => (Transaction.transaction_id r =? uuid)%string).



End RoundTrip.



(** ** Queries *)

Lemma newer_first_transitive : Transitive TransactionService.newer_first.
Proof. intros a b c. unfold TransactionService.newer_first. lia. Qed.

Lemma newer_first_total : Total TransactionService.newer_first.
Proof. intros a b. unfold TransactionService.newer_first. lia. Qed.



Lemma In_take {A : Type} (n : nat) (l : list A) (x : A) : In x (take n l) -> In x l.
Proof.
  intros H. rewrite <- (take_drop n l). apply in_or_app. now left.
Qed.

Lemma In_drop {A : Type} (n : nat) (l : list A) (x : A) : In x (drop n l) -> In x l.
Proof.
  intros H. rewrite <- (take_drop n l). apply in_or_app. now right.
Qed.

Lemma StronglySorted_take {A : Type} (R : relation A) (n : nat) (l : list A) :
  StronglySorted R l -> StronglySorted R (take n l).
Proof.
  intros H. rewrite <- (take_drop n l) in H. now apply StronglySorted_app_1_l in H.
Qed.

Lemma StronglySorted_drop {A : Type} (R : relation A) (n : nat) (l : list A) :
  StronglySorted R l -> StronglySorted R (drop n l).
Proof.
  intros H. rewrite <- (take_drop n l) in H. now apply StronglySorted_app_1_r in H.
Qed.

Lemma In_merge_sort {A : Type} (R : relation A) `{!forall x y, Decision (R x y)}
  (l : list A) (x : A) : In x (merge_sort R l) <-> In x l.
Proof.
  rewrite <- !list_elem_of_In. now rewrite merge_sort_Permutation.
Qed.

(** X19: [get_transactions_by_account] returns rows of the table that
    belong to the account and lie within the given dates, newest first,
    and never more than [limit] of them. *)
Theorem get_transactions_by_account_spec (s : Session.t) (account_id : string)
  (limit offset : nat) (start_date end_date : option Z) :
  let result :=
    TransactionService.get_transactions_by_account s account_id limit offset
      start_date end_date in
  Forall
    (fun t =>
       In t (Session.transactions s)
       /\ Transaction.account_id t = account_id
       /\ (forall d, start_date = Some d -> d <= Transaction.transaction_timestamp t)
       /\ (forall d, end_date = Some d -> Transaction.transaction_timestamp t <= d))
    result
  /\ StronglySorted TransactionService.newer_first result
  /\ (length result <= limit)%nat.
Proof.
  intros result. subst result.
  unfold TransactionService.get_transactions_by_account. split; [|split].
  - apply List.Forall_forall. intros t Hin.
    apply In_take, In_drop, In_merge_sort in Hin.
    assert (Hend : In t
      match start_date with
      | Some d =>
          List.filter (fun r => Transaction.transaction_timestamp r >=? d)
            (List.filter (fun r => (Transaction.account_id r =? account_id)%string)
               (Session.transactions s))
      | None =>
          List.filter (fun r => (Transaction.account_id r =? account_id)%string)
            (Session.transactions s)
      end
      /\ forall d, end_date = Some d -> Transaction.transaction_timestamp t <= d).
    { destruct end_date as [e|].
      - apply filter_In in Hin as [Hin He]. split; [exact Hin|].
        intros d [= <-]. now apply Z.leb_le.
      - split; [exact Hin | discriminate]. }
    destruct Hend as [Hin' Hend].
    assert (Hstart : In t (List.filter
                             (fun r => (Transaction.account_id r =? account_id)%string)
                             (Session.transactions s))
                     /\ forall d, start_date = Some d ->
                                  d <= Transaction.transaction_timestamp t).
    { destruct start_date as [b|].
      - apply filter_In in Hin' as [Hin' Hb]. split; [exact Hin'|].
        intros d [= <-]. now apply Z.geb_le.
      - split; [exact Hin' | discriminate]. }
    destruct Hstart as [Hacc Hstart].
    apply filter_In in Hacc as [Hrow Hacc]. apply String.eqb_eq in Hacc.
    repeat split; assumption.
  - apply StronglySorted_take, StronglySorted_drop, @StronglySorted_merge_sort;
      [apply newer_first_transitive | apply newer_first_total].
  - rewrite length_take. lia.
Qed.

(** X20: [get_flagged_transactions] returns flagged rows of the table
    only, newest first, at most [limit] of them, and all of them when
    [limit] is not smaller than their number. *)
Theorem get_flagged_transactions_spec (s : Session.t) (limit : nat) :
  let result := TransactionService.get_flagged_transactions s limit in
  Forall (fun t => In t (Session.transactions s) /\ Transaction.is_flagged t = true)
    result
  /\ StronglySorted TransactionService.newer_first result
  /\ (length result <= limit)%nat
  /\ ((length (List.filter Transaction.is_flagged (Session.transactions s)) <= limit)%nat ->
      forall t, In t (Session.transactions s) -> Transaction.is_flagged t = true ->
                In t result).
Proof.
  intros result. subst result. unfold TransactionService.get_flagged_transactions.
  split; [|split; [|split]].
  - apply List.Forall_forall. intros t Hin.
    apply In_take, In_merge_sort, filter_In in Hin. exact Hin.
  - apply StronglySorted_take, @StronglySorted_merge_sort;
      [apply newer_first_transitive | apply newer_first_total].
  - rewrite length_take. lia.
  - intros Hlen t Hin Hflag. rewrite take_ge.
    + apply In_merge_sort, filter_In. now split.
    + now rewrite (Permutation_length (merge_sort_Permutation _ _)).
Qed.

Lemma get_flagged_transactions_spec_witness :
  In (Transaction.set_is_flagged (Samples.tx 2 "TEST001" 20000 Samples.noon) true)
    (TransactionService.get_flagged_transactions
       (Samples.session
          [Samples.tx 1 "TEST001" 100 Samples.noon;
           Transaction.set_is_flagged
             (Samples.tx 2 "TEST001" 20000 Samples.noon) true] [])
       100).
Proof.
  apply (get_flagged_transactions_spec
           (Samples.session
              [Samples.tx 1 "TEST001" 100 Samples.noon;
               Transaction.set_is_flagged
                 (Samples.tx 2 "TEST001" 20000 Samples.noon) true] [])
           100).
  - vm_compute. lia.
  - right. left. reflexivity.
  - reflexivity.
Defined.



(** ** Further properties of the pattern detector *)

Lemma count_hour_lookup (m : gmap Z nat) (t : Transaction.t) (h : Z) :
  default 0%nat (TransactionService.count_hour m t !! h)
  = (default 0%nat (m !! h) + (if in_hour h t then 1 else 0))%nat.
Proof.
  unfold TransactionService.count_hour, in_hour.
  destruct (Z.eqb_spec (TransactionService.hour_key t) h) as [->|Hne].
  - now rewrite lookup_insert_eq.
  - rewrite lookup_insert_ne by exact Hne. lia.
Qed.

Lemma fold_count_hour_lookup (txs : list Transaction.t) (m : gmap Z nat) (h : Z) :
  default 0%nat (fold_left TransactionService.count_hour txs m !! h)
  = (default 0%nat (m !! h) + length (List.filter (in_hour h) txs))%nat.
Proof.
  revert m. induction txs as [|t txs IH]; intros m; cbn [fold_left List.filter].
  - cbn. lia.
  - rewrite IH, count_hour_lookup. destruct (in_hour h t); cbn [length]; lia.
Qed.

Lemma fold_count_hour_positive (txs : list Transaction.t) (m : gmap Z nat) :
  (forall k v, m !! k = Some v -> (0 < v)%nat) ->
  forall k v, fold_left TransactionService.count_hour txs m !! k = Some v -> (0 < v)%nat.
Proof.
  revert m. induction txs as [|t txs IH]; intros m Hm; cbn [fold_left]; [exact Hm|].
  apply IH. intros k v. unfold TransactionService.count_hour.
  destruct (Z.eq_dec (TransactionService.hour_key t) k) as [->|Hne].
  - rewrite lookup_insert_eq. intros [= <-]. lia.
  - rewrite lookup_insert_ne by exact Hne. apply Hm.
Qed.

(** The counter of an hour is the number of transactions of that hour. *)
Lemma hourly_counts_lookup (txs : list Transaction.t) (h : Z) (n : nat) :
  TransactionService.hourly_counts txs !! h = Some n
  <-> n = length (List.filter (in_hour h) txs) /\ (0 < n)%nat.
Proof.
  unfold TransactionService.hourly_counts.
  pose proof (fold_count_hour_lookup txs ∅ h) as Hc.
  rewrite lookup_empty in Hc. cbn [default] in Hc.
  split.
  - intros Hn. rewrite Hn in Hc. cbn in Hc. split; [lia|].
    eapply (fold_count_hour_positive txs ∅); [|exact Hn].
    intros k v. now rewrite lookup_empty.
  - intros [-> Hpos].
    destruct (fold_left TransactionService.count_hour txs ∅ !! h) as [v|];
      cbn in Hc; [now f_equal | lia].
Qed.

Lemma fold_max_nat (l : list nat) (a : nat) :
  (a <= fold_left Nat.max l a)%nat
  /\ Forall (fun x => (x <= fold_left Nat.max l a)%nat) l
  /\ (fold_left Nat.max l a = a \/ In (fold_left Nat.max l a) l).
Proof.
  revert a. induction l as [|x l IH]; intros a; cbn [fold_left].
  - repeat split; [lia | constructor | now left].
  - destruct (IH (Nat.max a x)) as (H1 & H2 & H3). split; [lia|]. split.
    + constructor; [lia | exact H2].
    + destruct H3 as [H3|H3]; [|right; now right].
      destruct (Nat.max_spec a x) as [[_ E]|[_ E]]; rewrite E in *.
      * right. left. now symmetry.
      * now left.
Qed.

Lemma hourly_count_values (txs : list Transaction.t) (v : nat) :
  In v (map_to_list (TransactionService.hourly_counts txs)).*2
  <-> exists h, TransactionService.hourly_counts txs !! h = Some v.
Proof.
  rewrite <- list_elem_of_In, list_elem_of_fmap. split.
  - intros ([h v'] & -> & Hin). exists h. now apply elem_of_map_to_list.
  - intros (h & Hh). exists (h, v). split; [reflexivity|].
    now apply elem_of_map_to_list.
Qed.

(** The largest counter bounds the transactions of every hour, and is the
    number of transactions of some hour unless it is 0. *)
Lemma max_hourly_count_spec (txs : list Transaction.t) :
  (forall h, (length (List.filter (in_hour h) txs)
              <= TransactionService.max_hourly_count txs)%nat)
  /\ (TransactionService.max_hourly_count txs = 0%nat
      \/ exists h, TransactionService.max_hourly_count txs
                   = length (List.filter (in_hour h) txs)).
Proof.
  unfold TransactionService.max_hourly_count, Py.max_nat.
  destruct (fold_max_nat (map_to_list (TransactionService.hourly_counts txs)).*2 0)
    as (_ & Hall & Hmem).
  split.
  - intros h.
    destruct (length (List.filter (in_hour h) txs)) as [|n] eqn:E; [lia|].
    assert (Hin : In (S n) (map_to_list (TransactionService.hourly_counts txs)).*2).
    { apply hourly_count_values. exists h. apply hourly_counts_lookup.
      split; [now rewrite E | lia]. }
    rewrite List.Forall_forall in Hall. now apply Hall.
  - destruct Hmem as [Hz|Hin]; [now left|]. right.
    apply hourly_count_values in Hin as (h & Hh).
    apply hourly_counts_lookup in Hh as [Hh _]. now exists h.
Qed.

(** X23: the velocity detector buckets the transactions by calendar hour
    correctly: it reports a VELOCITY pattern exactly when some hour holds
    more than 5 of the transactions, and the reported frequency is the
    number of transactions in the busiest hour. *)
Theorem detect_velocity_pattern_spec (transactions : list Transaction.t) :
  ((exists h, (5 < length (List.filter (in_hour h) transactions))%nat) ->
   exists p h,
     TransactionService._detect_velocity_pattern transactions = Ok (Some p)
     /\ TransactionPattern.pattern_type p = "VELOCITY"
     /\ TransactionPattern.time_window_hours p = 1
     /\ TransactionPattern.frequency_count p
        = length (List.filter (in_hour h) transactions)
     /\ forall h', (length (List.filter (in_hour h') transactions)
                    <= TransactionPattern.frequency_count p)%nat)
  /\ ((forall h, (length (List.filter (in_hour h) transactions) <= 5)%nat) ->
      TransactionService._detect_velocity_pattern transactions = Ok None).
Proof.
  destruct (max_hourly_count_spec transactions) as [Hbound Hmax].
  unfold TransactionService._detect_velocity_pattern. split.
  - intros (h & Hh).
    assert (Hm : (5 < TransactionService.max_hourly_count transactions)%nat)
      by (specialize (Hbound h); lia).
    apply Nat.ltb_lt in Hm as Hm'. rewrite Hm'.
    destruct transactions as [|t l]; [cbn in Hh; lia|].
    cbn [TransactionService.first_account Py.bind].
    destruct Hmax as [Hz|(h0 & Hh0)]; [lia|].
    eexists. exists h0. split; [reflexivity|]. cbn. repeat split; auto.
  - intros Hall.
    assert (Hm : (TransactionService.max_hourly_count transactions <= 5)%nat).
    { destruct Hmax as [->|(h & ->)]; [lia | apply Hall]. }
    apply Nat.ltb_ge in Hm. now rewrite Hm.
Qed.

Lemma detect_velocity_pattern_spec_witness :
  exists p,
    TransactionService._detect_velocity_pattern
      (Samples.structuring [100; 200; 300; 400; 500; 600]%Q) = Ok (Some p)
    /\ TransactionPattern.pattern_type p = "VELOCITY".
Proof.
  destruct (proj1 (detect_velocity_pattern_spec
                     (Samples.structuring [100; 200; 300; 400; 500; 600]%Q)))
    as (p & h & Hp & Hty & _).
  - exists 11. vm_compute. lia.
  - exists p. split; assumption.
Defined.

Lemma add_patterns_pending (ps : list TransactionPattern.t) (s : Session.t) :
  fold_left (fun s p => Session.add s (Session.EPattern p)) ps s
  = Session.mk (Session.transactions s) (Session.violations s) (Session.patterns s)
      (Session.pending s ++ map Session.EPattern ps) (Session.commit_outcomes s).
Proof.
  revert s. induction ps as [|p ps IH]; intros s; cbn.
  - rewrite app_nil_r. now destruct s.
  - rewrite IH. cbn. now rewrite <- app_assoc.
Qed.

Lemma insert_patterns (ps : list TransactionPattern.t) (s : Session.t) :
  fold_left Session.insert_row (map Session.EPattern ps) s
  = Session.mk (Session.transactions s) (Session.violations s)
      (Session.patterns s ++ ps) (Session.pending s) (Session.commit_outcomes s).
Proof.
  revert s. induction ps as [|p ps IH]; intros s; cbn.
  - rewrite app_nil_r. now destruct s.
  - rewrite IH. cbn. now rewrite <- app_assoc.
Qed.

(** The call, in terms of the list the detectors collect. *)
Lemma detect_suspicious_patterns_unfold (s : Session.t) (now : Z)
  (account_id : string) :
  let recent :=
    TransactionService.get_transactions_by_account s account_id 100 0
      (Some (now - days 30)) None in
  TransactionService.detect_suspicious_patterns s now account_id
  = if (length recent <? 5)%nat then (Ok [], s)
    else
      match analyse recent with
      | Raise e => (Raise e, s)
      | Ok patterns =>
          let s1 :=
            fold_left (fun s p => Session.add s (Session.EPattern p)) patterns s in
          match patterns with
          | [] => (Ok patterns, s1)
          | _ :: _ =>
              match Session.commit s1 [] with
              | (Raise e, s2) => (Raise e, s2)
              | (Ok _, s2) => (Ok patterns, s2)
              end
          end
      end.
Proof.
  intros recent. unfold TransactionService.detect_suspicious_patterns, analyse.
  fold recent. destruct (length recent <? 5)%nat; [reflexivity|].
  destruct (TransactionService._detect_velocity_pattern recent); [|reflexivity].
  destruct (TransactionService._detect_amount_pattern recent); [|reflexivity].
  destruct (TransactionService._detect_time_pattern recent); reflexivity.
Qed.

Lemma min2_unit (x : Q) :
  (0 < x)%Q -> (0 < Py.min2 x 1)%Q /\ (Py.min2 x 1 <= 1)%Q.
Proof.
  intros Hx. unfold Py.min2. destruct (Py.lt 1 x) eqn:E.
  - lra.
  - apply lt_false in E. lra.
Qed.

Lemma count_ratio_positive (n : nat) (d : Q) :
  (0 < n)%nat -> (0 < d)%Q -> (0 < inject_Z (Z.of_nat n) / d)%Q.
Proof.
  intros Hn Hd. apply Qlt_shift_div_l; [exact Hd|].
  assert (0 < inject_Z (Z.of_nat n))%Q
    by (change 0%Q with (inject_Z 0); rewrite <- Zlt_Qlt; lia).
  lra.
Qed.

Section Detectors.

Variables (account_id : string) (recent : list Transaction.t).
Hypothesis recent_nonempty : recent <> [].
Hypothesis recent_account :
  Forall (fun t => Transaction.account_id t = account_id) recent.

#[local] Abbreviation reported_here := (reported account_id (length recent)).

Lemma first_account_recent : TransactionService.first_account recent = Ok account_id.
Proof.
  destruct recent as [|t l]; [congruence|]. cbn.
  apply Forall_cons_iff in recent_account as [<- _]. reflexivity.
Qed.

Lemma max_hourly_count_le_length :
  (TransactionService.max_hourly_count recent <= length recent)%nat.
Proof.
  destruct (max_hourly_count_spec recent) as [_ [->|(h & ->)]]; [lia|].
  apply filter_length_le.
Qed.

Lemma velocity_reported :
  exists o, TransactionService._detect_velocity_pattern recent = Ok o
            /\ forall p, o = Some p -> reported_here p.
Proof.
  unfold TransactionService._detect_velocity_pattern.
  rewrite first_account_recent. cbn [Py.bind].
  destruct (5 <? TransactionService.max_hourly_count recent)%nat eqn:E.
  - apply Nat.ltb_lt in E. eexists. split; [reflexivity|].
    intros p [= <-]. unfold reported. cbn.
    pose proof max_hourly_count_le_length.
    destruct (min2_unit (inject_Z (Z.of_nat
                (TransactionService.max_hourly_count recent)) / 10))
      as [H0 H1]; [apply count_ratio_positive; [lia | reflexivity]|].
    repeat split; auto; lia.
  - eexists. split; [reflexivity|]. discriminate.
Qed.

Lemma amount_reported :
  exists o, TransactionService._detect_amount_pattern recent = Ok o
            /\ forall p, o = Some p -> reported_here p.
Proof.
  unfold TransactionService._detect_amount_pattern.
  rewrite first_account_recent. cbn [Py.bind].
  pose proof (filter_length_le TransactionService.near_threshold recent) as Hle.
  destruct (3 <=? length (List.filter TransactionService.near_threshold recent))%nat
    eqn:E.
  - apply Nat.leb_le in E. eexists. split; [reflexivity|].
    intros p [= <-]. unfold reported. cbn.
    destruct (min2_unit (inject_Z (Z.of_nat (length
                (List.filter TransactionService.near_threshold recent))) / 5))
      as [H0 H1]; [apply count_ratio_positive; [lia | reflexivity]|].
    repeat split; auto; lia.
  - eexists. split; [reflexivity|]. discriminate.
Qed.

Lemma time_reported :
  exists o, TransactionService._detect_time_pattern recent = Ok o
            /\ forall p, o = Some p -> reported_here p.
Proof.
  unfold TransactionService._detect_time_pattern.
  rewrite first_account_recent. cbn [Py.bind].
  pose proof (filter_length_le TransactionService.unusual_time recent) as Hle.
  destruct (3 <=? length (List.filter TransactionService.unusual_time recent))%nat
    eqn:E.
  - apply Nat.leb_le in E. eexists. split; [reflexivity|].
    intros p [= <-]. unfold reported. cbn.
    destruct (min2_unit (inject_Z (Z.of_nat (length
                (List.filter TransactionService.unusual_time recent))) / 10))
      as [H0 H1]; [apply count_ratio_positive; [lia | reflexivity]|].
    repeat split; auto; lia.
  - eexists. split; [reflexivity|]. discriminate.
Qed.

Lemma append_if_reported (ps : list TransactionPattern.t)
  (o : option TransactionPattern.t) :
  Forall reported_here ps -> (forall p, o = Some p -> reported_here p) ->
  Forall reported_here (TransactionService.append_if ps o)
  /\ (length (TransactionService.append_if ps o) <= S (length ps))%nat.
Proof.
  intros Hps Ho. destruct o as [p|]; cbn.
  - split; [|rewrite length_app; cbn; lia].
    apply Forall_app. split; [exact Hps|]. constructor; [now apply Ho | constructor].
  - split; [exact Hps | lia].
Qed.

Lemma analyse_reported :
  exists patterns,
    analyse recent = Ok patterns
    /\ Forall reported_here patterns /\ (length patterns <= 3)%nat.
Proof.
  unfold analyse.
  destruct velocity_reported as (o1 & -> & H1).
  destruct amount_reported as (o2 & -> & H2).
  destruct time_reported as (o3 & -> & H3). cbn [Py.bind].
  eexists. split; [reflexivity|].
  destruct (append_if_reported [] o1 (List.Forall_nil _) H1) as [F1 L1].
  destruct (append_if_reported _ o2 F1 H2) as [F2 L2].
  destruct (append_if_reported _ o3 F2 H3) as [F3 L3].
  split; [exact F3|]. cbn [length] in L1. lia.
Qed.

End Detectors.

Lemma recent_rows_account (s : Session.t) (account_id : string) (limit : nat)
  (start_date : Z) :
  Forall (fun t => Transaction.account_id t = account_id)
    (TransactionService.get_transactions_by_account s account_id limit 0
       (Some start_date) None).
Proof.
  unfold TransactionService.get_transactions_by_account.
  apply List.Forall_forall. intros t Hin.
  apply In_take, In_drop, In_merge_sort, filter_In in Hin as [Hin _].
  apply filter_In in Hin as [_ Hin]. now apply String.eqb_eq.
Qed.

(** What an accepted detection returns and stores. *)
Lemma detect_suspicious_patterns_accepted (s : Session.t) (now : Z)
  (account_id : string) :
  let recent :=
    TransactionService.get_transactions_by_account s account_id 100 0
      (Some (now - days 30)) None in
  (5 <= length recent)%nat ->
  Session.pending s = [] ->
  Session.accepts_next s = true ->
  exists patterns s',
    TransactionService.detect_suspicious_patterns s now account_id
    = (Ok patterns, s')
    /\ analyse recent = Ok patterns
    /\ (length patterns <= 3)%nat
    /\ Forall (reported account_id (length recent)) patterns
    /\ Session.patterns s' = (Session.patterns s ++ patterns)%list
    /\ Session.transactions s' = Session.transactions s
    /\ Session.violations s' = Session.violations s
    /\ Session.pending s' = []
    /\ Session.commit_outcomes s'
       = match patterns with
         | [] => Session.commit_outcomes s
         | _ :: _ => tl (Session.commit_outcomes s)
         end.
Proof.
  intros recent Hlen Hpend Hacc.
  rewrite detect_suspicious_patterns_unfold. fold recent.
  apply Nat.ltb_ge in Hlen as Hlt. rewrite Hlt.
  destruct (analyse_reported account_id recent) as (patterns & Han & Hrep & Hl3).
  { destruct recent; [cbn in Hlen; lia | discriminate]. }
  { apply recent_rows_account. }
  rewrite Han. exists patterns.
  destruct patterns as [|p ps].
  - exists s. cbn. rewrite app_nil_r. repeat split; auto.
  - cbv beta iota zeta.
    rewrite commit_accepted by (now rewrite add_patterns_pending).
    eexists. split; [reflexivity|].
    unfold Session.flush, Session.next_outcomes.
    rewrite add_patterns_pending. cbn [Session.pending Session.transactions
      Session.violations Session.patterns Session.commit_outcomes].
    rewrite Hpend, app_nil_l, insert_patterns. cbn. repeat split; auto.
Qed.

(** X24: with at least 5 transactions to analyse the detection does not
    raise; it returns at most three patterns, each for the queried
    account, of type VELOCITY, AMOUNT or TEMPORAL, with a confidence
    above 0 and at most 1 and a frequency between 3 and the number of
    analysed transactions; the patterns are appended to the patterns
    table and no other table changes. *)
Theorem detect_suspicious_patterns_success (s : Session.t) (now : Z)
  (account_id : string) :
  let recent :=
    TransactionService.get_transactions_by_account s account_id 100 0
      (Some (now - days 30)) None in
  (5 <= length recent)%nat ->
  Session.pending s = [] ->
  Session.accepts_next s = true ->
  exists patterns s',
    TransactionService.detect_suspicious_patterns s now account_id
    = (Ok patterns, s')
    /\ (length patterns <= 3)%nat
    /\ Forall (reported account_id (length recent)) patterns
    /\ Session.patterns s' = (Session.patterns s ++ patterns)%list
    /\ Session.transactions s' = Session.transactions s
    /\ Session.violations s' = Session.violations s.
Proof.
  intros recent Hlen Hpend Hacc.
  destruct (detect_suspicious_patterns_accepted s now account_id Hlen Hpend Hacc)
    as (patterns & s' & H1 & _ & H2 & H3 & H4 & H5 & H6 & _).
  exists patterns, s'. repeat split; assumption.
Qed.

Lemma detect_suspicious_patterns_success_witness :
  exists patterns s',
    TransactionService.detect_suspicious_patterns
      (Samples.session (Samples.structuring [9500; 9800; 9200; 9900; 100]%Q) [])
      Samples.noon "ACC123456"
    = (Ok patterns, s')
    /\ length (Session.patterns s') = length patterns.
Proof.
  destruct (detect_suspicious_patterns_success
              (Samples.session (Samples.structuring [9500; 9800; 9200; 9900; 100]%Q) [])
              Samples.noon "ACC123456")
    as (patterns & s' & Hrun & _ & _ & Hp & _).
  - vm_compute. lia.
  - reflexivity.
  - reflexivity.
  - exists patterns, s'. split; [exact Hrun|]. now rewrite Hp.
Defined.

(** X25: detection does not look at the patterns already stored: a second
    call over the same transactions at the same time returns the same
    patterns and stores them a second time. *)
Theorem detect_suspicious_patterns_twice (s : Session.t) (now : Z)
  (account_id : string) :
  let recent :=
    TransactionService.get_transactions_by_account s account_id 100 0
      (Some (now - days 30)) None in
  (5 <= length recent)%nat ->
  Session.pending s = [] ->
  accepts_all s ->
  exists patterns s1 s2,
    TransactionService.detect_suspicious_patterns s now account_id
    = (Ok patterns, s1)
    /\ TransactionService.detect_suspicious_patterns s1 now account_id
       = (Ok patterns, s2)
    /\ Session.patterns s2 = (Session.patterns s ++ patterns ++ patterns)%list.
Proof.
  intros recent Hlen Hpend Hall.
  destruct (accepts_all_next _ Hall) as [H1 Hrest].
  destruct (accepts_all_next _ Hrest) as [H2 _].
  destruct (detect_suspicious_patterns_accepted s now account_id Hlen Hpend H1)
    as (patterns & s1 & Hrun1 & Han1 & _ & _ & Hp1 & Ht1 & _ & Hpend1 & Hout1).
  fold recent in Han1.
  assert (Hrecent :
    TransactionService.get_transactions_by_account s1 account_id 100 0
      (Some (now - days 30)) None = recent).
  { unfold recent, TransactionService.get_transactions_by_account. now rewrite Ht1. }
  assert (Hacc1 : Session.accepts_next s1 = true).
  { unfold Session.accepts_next. rewrite Hout1. now destruct patterns. }
  destruct (detect_suspicious_patterns_accepted s1 now account_id)
    as (patterns' & s2 & Hrun2 & Han2 & _ & _ & Hp2 & _);
    [now rewrite Hrecent | exact Hpend1 | exact Hacc1 |].
  rewrite Hrecent, Han1 in Han2. injection Han2 as <-.
  exists patterns, s1, s2. split; [exact Hrun1|]. split; [exact Hrun2|].
  now rewrite Hp2, Hp1, <- app_assoc.
Qed.

Lemma detect_suspicious_patterns_twice_witness :
  exists patterns s1 s2,
    TransactionService.detect_suspicious_patterns
      (Samples.session (Samples.structuring [9500; 9800; 9200; 9900; 100]%Q) [])
      Samples.noon "ACC123456"
    = (Ok patterns, s1)
    /\ TransactionService.detect_suspicious_patterns s1 Samples.noon "ACC123456"
       = (Ok patterns, s2)
    /\ length (Session.patterns s2) = 2%nat.
Proof.
  destruct (detect_suspicious_patterns_twice
              (Samples.session (Samples.structuring [9500; 9800; 9200; 9900; 100]%Q) [])
              Samples.noon "ACC123456")
    as (patterns & s1 & s2 & Hrun1 & Hrun2 & Hp).
  - vm_compute. lia.
  - reflexivity.
  - constructor.
  - exists patterns, s1, s2. split; [exact Hrun1|]. split; [exact Hrun2|].
    rewrite Hp. vm_compute in Hrun1. injection Hrun1 as <- _. reflexivity.
Defined.

(** ** The service as configured *)





